(** * Insights engine of the NL2SQL query console

    A shallow embedding of [insights.py]: the rule-based engine that turns a
    question, the SQL text and the tabular result of the query into KPI
    tiles, a markdown narrative and up to two charts.

    Layout of the development:
    - [Py]       exceptions and the error monad used for Python code that may raise;
    - [Text]     Python [str] operations used by the engine ([lower], [in], [join],
                 integer formatting);
    - [F64]      IEEE-754 binary64 arithmetic (Stdlib's [SpecFloat]) and Python's
                 fixed-point float formatting;
    - [Pandas]   the part of the data-frame interface the engine calls;
    - [Insights] the engine itself, method by method;
    - the facts proved about the engine.

    What the numeric and plotting libraries decide on their own is a
    parameter of the engine, a [Library]: the order in which the cells of a
    float column are added up, the leading group of a grouped sum, and
    whether drawing a figure fails. *)

From Stdlib Require Import ZArith NArith String Ascii List Bool Lia DecimalString.
From Stdlib Require Import Floats.SpecFloat.
Import ListNotations.
Local Open Scope string_scope.

(* ================================================================== *)
(** ** Python exceptions *)

Module Py.

Inductive exn : Type :=
| TypeError
| ValueError
| OverflowError
| KeyError
| OtherError (name : string).

(** The outcome of running Python code: a value, or a raised exception. *)
Inductive Outcome (A : Type) : Type :=
| Ok (a : A)
| Raise (e : exn).
Arguments Ok {A} a.
Arguments Raise {A} e.

Definition bind {A B : Type} (c : Outcome A) (k : A -> Outcome B) : Outcome B :=
  match c with
  | Ok a => k a
  | Raise e => Raise e
  end.

End Py.
Export Py.

Declare Scope py_scope.
Delimit Scope py_scope with py.
Notation "x <- c ;; k" := (Py.bind c (fun x => k))
  (at level 61, c at next level, right associativity) : py_scope.
Notation "' pat <- c ;; k" := (Py.bind c (fun x => match x with pat => k end))
  (at level 61, pat pattern, c at next level, right associativity) : py_scope.
Local Open Scope py_scope.

(* ================================================================== *)
(** ** Python strings

    Text is the sequence of the bytes of its UTF-8 encoding: a character is
    one byte below 128, or a lead byte followed by continuation bytes
    (128 to 191).  No byte of a character of several bytes is below 128, so
    a text of ASCII characters occurs in a text as a sequence of characters
    exactly when it occurs in it as a sequence of bytes. *)

Module Text.

Definition nl : string := String (ascii_of_nat 10) EmptyString.

Definition lower_ascii (c : ascii) : ascii :=
  let n := nat_of_ascii c in
  if ((65 <=? n) && (n <=? 90))%nat then ascii_of_nat (n + 32) else c.

(** [s.lower()], as far as ASCII characters come out of it.  [str.lower]
    turns the capitals A to Z into small letters, the Kelvin sign U+212A
    (bytes 226 132 170) into "k", and the dotted capital I U+0130 (bytes
    196 176) into "i" followed by the combining dot U+0307 (bytes 204 135).
    Every other character has a lower-case form without an ASCII character
    in it and is kept as it is here: the engine only asks whether an ASCII
    word occurs in, or is equal to, a lower-cased text, and for that such a
    character counts the same before and after. *)
Fixpoint lower (s : string) : string :=
  match s with
  | EmptyString => EmptyString
  | String c t =>
      if Ascii.eqb c (ascii_of_nat 226) then
        match t with
        | String c2 (String c3 t') =>
            if Ascii.eqb c2 (ascii_of_nat 132) && Ascii.eqb c3 (ascii_of_nat 170)
            then String "k" (lower t')
            else String c (lower t)
        | _ => String c (lower t)
        end
      else if Ascii.eqb c (ascii_of_nat 196) then
        match t with
        | String c2 t' =>
            if Ascii.eqb c2 (ascii_of_nat 176)
            then String "i" (String (ascii_of_nat 204)
                               (String (ascii_of_nat 135) (lower t')))
            else String c (lower t)
        | _ => String c (lower t)
        end
      else String (lower_ascii c) (lower t)
  end.

(** A continuation byte of a character of several bytes. *)
Definition is_continuation (c : ascii) : bool :=
  let n := nat_of_ascii c in
  ((128 <=? n) && (n <=? 191))%nat.

(** [len(s)]: the number of characters. *)
Fixpoint char_count (s : string) : nat :=
  match s with
  | EmptyString => O
  | String c t => if is_continuation c then char_count t else S (char_count t)
  end.

(** [s[:n]]: the first [n] characters. *)
Fixpoint take_chars (n : nat) (s : string) : string :=
  match s with
  | EmptyString => EmptyString
  | String c t =>
      if is_continuation c then String c (take_chars n t)
      else match n with
           | O => EmptyString
           | S n' => String c (take_chars n' t)
           end
  end.

(** [kw in s] on strings: [kw] occurs in [s] as a contiguous substring. *)
Fixpoint str_in (kw s : string) : bool :=
  prefix kw s ||
  match s with
  | EmptyString => false
  | String _ t => str_in kw t
  end.

(** [x in l] on a list of strings. *)
Definition list_in (x : string) (l : list string) : bool :=
  existsb (String.eqb x) l.

(** [sep.join(parts)] *)
Definition join (sep : string) (parts : list string) : string :=
  String.concat sep parts.

(** [str(n)] for a non-negative integer. *)
Definition digits (n : N) : string :=
  NilZero.string_of_uint (N.to_uint n).

(** The thousands separator of the [,] format option, working on the
    reversed digit sequence; [k] counts the digits since the last comma. *)
Fixpoint group3_rev (cs : list ascii) (k : nat) : list ascii :=
  match cs with
  | [] => []
  | c :: rest =>
      match k with
      | 3%nat => ","%char :: c :: group3_rev rest 1
      | _ => c :: group3_rev rest (S k)
      end
  end.

Definition group3 (ds : string) : string :=
  string_of_list_ascii (rev (group3_rev (rev (list_ascii_of_string ds)) 0)).

(** [f"{z:,}"] for a Python integer. *)
Definition format_int_comma (z : Z) : string :=
  (if (z <? 0)%Z then "-" else "") ++ group3 (digits (Z.abs_N z)).

(** [digits n] left-padded with zeros to at least [w] characters. *)
Fixpoint zeros (k : nat) : string :=
  match k with
  | O => ""
  | S k' => String "0"%char (zeros k')
  end.

Definition pad_digits (w : nat) (n : N) : string :=
  let ds := digits n in
  zeros (w - String.length ds) ++ ds.

End Text.

(* ================================================================== *)
(** ** binary64 floating point

    Values of Python [float] / [numpy.float64], with the arithmetic of
    [SpecFloat] at precision 53 and maximal exponent 1024. *)

Module F64.

Definition float : Type := spec_float.

Definition prec : Z := 53.
Definition emax : Z := 1024.

Definition nan : float := S754_nan.
Definition zero : float := S754_zero false.

(** [float(z)], correctly rounded. *)
Definition of_Z (z : Z) : float := binary_normalize prec emax z 0 false.

Definition add : float -> float -> float := SFadd prec emax.
Definition mul : float -> float -> float := SFmul prec emax.
Definition div : float -> float -> float := SFdiv prec emax.

Definition ltb : float -> float -> bool := SFltb.
Definition leb : float -> float -> bool := SFleb.
Definition gtb (x y : float) : bool := SFltb y x.
Definition geb (x y : float) : bool := SFleb y x.
Definition eqb : float -> float -> bool := SFeqb.

Definition is_nan (x : float) : bool :=
  match x with
  | S754_nan => true
  | _ => false
  end.

Definition is_inf (x : float) : bool :=
  match x with
  | S754_infinity _ => true
  | _ => false
  end.

(** [int(x)]: truncation towards zero; infinities and NaN do not convert. *)
Definition to_int (x : float) : Outcome Z :=
  match x with
  | S754_nan => Raise ValueError
  | S754_infinity _ => Raise OverflowError
  | S754_zero _ => Ok 0%Z
  | S754_finite s m e =>
      let a := if (0 <=? e)%Z then (Zpos m * 2 ^ e)%Z
               else (Zpos m / 2 ^ (- e))%Z in
      Ok (if s then (- a)%Z else a)
  end.

(** The integer nearest to [m * 2^e * 10^d], ties to even: the digits that
    the [f] presentation with [d] decimals prints. *)
Definition scaled_round (d : nat) (m : positive) (e : Z) : N :=
  let n := (Zpos m * 10 ^ Z.of_nat d)%Z in
  if (0 <=? e)%Z then Z.to_N (n * 2 ^ e)
  else
    let p := (2 ^ (- e))%Z in
    let q := (n / p)%Z in
    let r := (n mod p)%Z in
    match (2 * r ?= p)%Z with
    | Lt => Z.to_N q
    | Gt => Z.to_N (q + 1)
    | Eq => if Z.even q then Z.to_N q else Z.to_N (q + 1)
    end.

(** The decimal rendering of [n / 10^d] with exactly [d] decimals. *)
Definition fixed (comma : bool) (d : nat) (n : N) : string :=
  let scale := (10 ^ N.of_nat d)%N in
  let ip := Text.digits (n / scale) in
  (if comma then Text.group3 ip else ip) ++
  match d with
  | O => ""
  | _ => "." ++ Text.pad_digits d (n mod scale)
  end.

(** [format(x, ".{d}f")], and [format(x, ",.{d}f")] when [comma] is set. *)
Definition format_f (comma : bool) (d : nat) (x : float) : string :=
  match x with
  | S754_nan => "nan"
  | S754_infinity s => (if s then "-" else "") ++ "inf"
  | S754_zero s => (if s then "-" else "") ++ fixed comma d 0
  | S754_finite s m e =>
      (if s then "-" else "") ++ fixed comma d (scaled_round d m e)
  end.

End F64.

(* ================================================================== *)
(** ** The data-frame interface

    A result set is a [DataFrame]: an index of [index_len] rows and an
    ordered list of labelled columns.  The rows reach the engine as records
    keyed by column name, so a label names one column.  A column is a
    [Series] of one of the four dtypes a query result takes: [int64],
    [float64] (a missing number is NaN), [bool], and [object] for text, where
    a missing value is [None].

    The reductions follow pandas: missing cells are skipped, integers are
    summed exactly in 64 bits, means and medians are computed in binary64.
    The float sum of a column depends on the order in which the array
    library adds the cells, which the engine does not fix: it is a
    parameter, [float_sum]. *)

Module Pandas.
Import F64.

(** A numpy scalar, as the reductions return them. *)
Inductive Number : Type :=
| NumInt (z : Z)
| NumFloat (x : float).

Definition to_float (n : Number) : float :=
  match n with
  | NumInt z => of_Z z
  | NumFloat x => x
  end.

(** [int(n)] *)
Definition int_of (n : Number) : Outcome Z :=
  match n with
  | NumInt z => Ok z
  | NumFloat x => to_int x
  end.

Inductive Dtype : Type := int64 | float64 | bool_ | object_.

(** The Python types a dtype is compared with. *)
Inductive PyType : Type := py_int | py_float | py_bool.

(** [dtype == t] *)
Definition dtype_eq (d : Dtype) (t : PyType) : bool :=
  match d, t with
  | int64, py_int => true
  | float64, py_float => true
  | bool_, py_bool => true
  | _, _ => false
  end.

(** [dtype in ts] *)
Definition dtype_in (d : Dtype) (ts : list PyType) : bool :=
  existsb (dtype_eq d) ts.

Inductive Series : Type :=
| Int64 (xs : list Z)
| Float64 (xs : list float)
| Bool (xs : list bool)
| Object (xs : list (option string)).

Definition dtype (s : Series) : Dtype :=
  match s with
  | Int64 _ => int64
  | Float64 _ => float64
  | Bool _ => bool_
  | Object _ => object_
  end.

Definition size (s : Series) : nat :=
  match s with
  | Int64 xs => length xs
  | Float64 xs => length xs
  | Bool xs => length xs
  | Object xs => length xs
  end.

Record DataFrame : Type := {
  index_len : nat;
  data : list (string * Series)
}.

(** [df.columns] *)
Definition columns (df : DataFrame) : list string := map fst (data df).

(** [len(df)] *)
Definition len (df : DataFrame) : nat := index_len df.

(** [df.empty]: some axis has length zero. *)
Definition empty (df : DataFrame) : bool :=
  (index_len df =? 0)%nat || (length (data df) =? 0)%nat.

(** [df[c]] *)
Definition getitem (df : DataFrame) (c : string) : Outcome Series :=
  match find (fun p => String.eqb (fst p) c) (data df) with
  | Some (_, s) => Ok s
  | None => Raise KeyError
  end.

Definition int64_min : Z := - 2 ^ 63.
Definition int64_max : Z := 2 ^ 63 - 1.

(** A well-formed frame: labels are distinct, every column has one cell
    per row, integer cells are 64-bit, float cells are binary64 values. *)
Definition series_wf (s : Series) : Prop :=
  match s with
  | Int64 xs => Forall (fun z => (int64_min <= z <= int64_max)%Z) xs
  | Float64 xs => Forall (fun x => valid_binary prec emax x = true) xs
  | _ => True
  end.

Definition wf (df : DataFrame) : Prop :=
  NoDup (columns df) /\
  Forall (fun p => size (snd p) = index_len df /\ series_wf (snd p)) (data df).

(** 64-bit two's complement wrap-around of integer arithmetic. *)
Definition wrap64 (z : Z) : Z := ((z + 2 ^ 63) mod 2 ^ 64 - 2 ^ 63)%Z.

Definition has_text (xs : list (option string)) : bool :=
  existsb (fun o => match o with Some _ => true | None => false end) xs.

(** The cells of a column as floats, the way the float reductions see
    them; text does not convert. *)
Definition as_floats (s : Series) : Outcome (list float) :=
  match s with
  | Int64 xs => Ok (map of_Z xs)
  | Float64 xs => Ok xs
  | Bool xs => Ok (map (fun b : bool => if b then of_Z 1 else zero) xs)
  | Object xs => if has_text xs then Raise TypeError else Ok (map (fun _ => nan) xs)
  end.

Definition count_valid (xs : list float) : nat :=
  length (filter (fun x => negb (is_nan x)) xs).

Definition count_true (xs : list bool) : nat :=
  length (filter (fun b : bool => b) xs).

Section Reductions.

(** The sum in float64 of the cells of an integer or float column, NaN
    cells left out, as the array library accumulates it. *)
Variable float_sum : Series -> float.

(** [s.sum()]: exact (wrapping) on integers, a count on booleans, the float
    sum on floats.  Text has no numeric sum; the engine tests the dtype
    before every call. *)
Definition sum (s : Series) : Outcome Number :=
  match s with
  | Int64 xs => Ok (NumInt (wrap64 (fold_left Z.add xs 0%Z)))
  | Bool xs => Ok (NumInt (Z.of_nat (count_true xs)))
  | Float64 xs => Ok (NumFloat (float_sum s))
  | Object _ => Raise TypeError
  end.

(** [s.mean()]: the float sum of the valid cells over their count; for
    booleans the number of true cells over the number of cells. *)
Definition mean (s : Series) : Outcome float :=
  match s with
  | Int64 xs =>
      Ok (match length xs with
          | O => nan
          | n => div (float_sum s) (of_Z (Z.of_nat n))
          end)
  | Float64 xs =>
      Ok (match count_valid xs with
          | O => nan
          | n => div (float_sum s) (of_Z (Z.of_nat n))
          end)
  | Bool xs =>
      Ok (match length xs with
          | O => nan
          | n => div (of_Z (Z.of_nat (count_true xs))) (of_Z (Z.of_nat n))
          end)
  | Object xs => if has_text xs then Raise TypeError else Ok nan
  end.

End Reductions.

Fixpoint insert_sorted (x : float) (l : list float) : list float :=
  match l with
  | [] => [x]
  | y :: t => if leb x y then x :: l else y :: insert_sorted x t
  end.

Definition sort (l : list float) : list float :=
  fold_right insert_sorted [] l.

(** [s.median()]: the middle valid cell, or the mean of the two middle ones. *)
Definition median (s : Series) : Outcome float :=
  xs <- as_floats s ;;
  let v := sort (filter (fun x => negb (is_nan x)) xs) in
  let n := length v in
  Ok (match n with
      | O => nan
      | _ =>
          if Nat.odd n then nth (n / 2) v nan
          else div (add (nth (n / 2 - 1) v nan) (nth (n / 2) v nan)) (of_Z 2)
      end).

(** [(s >= k).sum()] and [(s <= k).sum()] *)
Definition count_ge (s : Series) (k : Z) : Outcome Z :=
  match s with
  | Int64 xs => Ok (Z.of_nat (length (filter (fun z => (k <=? z)%Z) xs)))
  | Object _ => Raise TypeError
  | _ => xs <- as_floats s ;;
         Ok (Z.of_nat (length (filter (fun x => geb x (of_Z k)) xs)))
  end.

Definition count_le (s : Series) (k : Z) : Outcome Z :=
  match s with
  | Int64 xs => Ok (Z.of_nat (length (filter (fun z => (z <=? k)%Z) xs)))
  | Object _ => Raise TypeError
  | _ => xs <- as_floats s ;;
         Ok (Z.of_nat (length (filter (fun x => leb x (of_Z k)) xs)))
  end.

(** The number of distinct cells, [len(s.unique())]; missing values count
    as one value. *)
Fixpoint distinct {A : Type} (eq : A -> A -> bool) (l : list A) : list A :=
  match l with
  | [] => []
  | x :: t => x :: filter (fun y => negb (eq x y)) (distinct eq t)
  end.

Definition float_same (x y : float) : bool :=
  (is_nan x && is_nan y) || eqb x y.

Definition text_same (x y : option string) : bool :=
  match x, y with
  | Some a, Some b => String.eqb a b
  | None, None => true
  | _, _ => false
  end.

Definition nunique (s : Series) : nat :=
  match s with
  | Int64 xs => length (distinct Z.eqb xs)
  | Float64 xs => length (distinct float_same xs)
  | Bool xs => length (distinct Bool.eqb xs)
  | Object xs => length (distinct text_same xs)
  end.

(** [s.dropna()] *)
Definition dropna (s : Series) : Series :=
  match s with
  | Float64 xs => Float64 (filter (fun x => negb (is_nan x)) xs)
  | Object xs =>
      Object (filter (fun o => match o with Some _ => true | None => false end) xs)
  | _ => s
  end.

(** Some cell is an infinity. *)
Definition has_infinite (s : Series) : bool :=
  match s with
  | Float64 xs => existsb is_inf xs
  | _ => false
  end.

(** [df.select_dtypes(include=[np.number]).columns] *)
Definition numeric_columns (df : DataFrame) : list string :=
  map fst (filter (fun p => match dtype (snd p) with
                            | int64 | float64 => true
                            | _ => false
                            end) (data df)).

(** What a chart plots.  The split-apply-combine pipelines that feed the
    bar charts are kept as terms: the cells grouped by, the cells
    aggregated and the aggregation; the figure shows the ten largest
    groups in descending order. *)
Inductive Agg : Type := agg_mean | agg_sum.

Inductive PlotData : Type :=
| GroupedTop10 (how : Agg) (by_ vals : Series)
| Cells (vals : Series).

(** [df.groupby(by)[vals].mean().sort_values(ascending=False).head(10)]:
    the group means do not exist for text. *)
Definition groupby_mean_top10 (by_ vals : Series) : Outcome PlotData :=
  _ <- as_floats vals ;;
  Ok (GroupedTop10 agg_mean by_ vals).

End Pandas.

(* ================================================================== *)
(** ** The engine *)

Module Insights.
Import Text F64 Pandas.

(** One KPI tile: a row of the [kpis] frame. *)
Record KPI : Type := {
  metric : string;
  value : string;
  change : string;
  icon : string
}.

Inductive ChartKind : Type :=
| barh
| hist (bins : nat).

(** A figure, as far as its content goes: kind, plotted data, title and
    axis labels. *)
Record Figure : Type := {
  fig_kind : ChartKind;
  fig_data : PlotData;
  fig_title : string;
  fig_xlabel : string;
  fig_ylabel : string
}.

(** The dictionary an analysis block returns. *)
Record BlockResult : Type := {
  res_kpis : list KPI;
  res_narrative : string;
  res_chart : option Figure;
  res_derivation : string
}.

(** Container for generated insights. *)
Record InsightArtifacts : Type := {
  kpis : list KPI;
  narrative : string;
  charts : list Figure;
  derivation : string
}.

(** The three analysis methods a run can select. *)
Inductive Block : Type :=
| delivery_block
| payment_block
| review_block.

(** Truth value of [next(..., None)]: a found, non-empty label. *)
Definition truthy (o : option string) : bool :=
  match o with
  | Some c => negb (String.eqb c "")
  | None => false
  end.

(** ["\n".join(f"- {p}" for p in narrative_points)] *)
Definition bullets (narrative_points : list string) : string :=
  join nl (map (fun p => "- " ++ p) narrative_points).

(** The numeric literals of the rules. *)
Definition f100 : float := of_Z 100.
Definition f10 : float := of_Z 10.
Definition f1_5 : float := div (of_Z 3) (of_Z 2).
Definition f4 : float := of_Z 4.
Definition f3 : float := of_Z 3.

(** What the libraries under the engine decide. *)
Record Library : Type := {
  (** the float sum of a column, see [Pandas.sum]; *)
  float_sum : Series -> float;
  (** the leading group of
      [df.groupby(by)[vals].sum().sort_values(ascending=False).head(10)]:
      its label as text and its sum; *)
  groupby_sum_top : Series -> Series -> string * Number;
  (** the exception, if any, with which drawing a figure ends. *)
  draw_error : Figure -> option exn
}.

Section Engine.

(** The values of the schema dictionary. *)
Variable Any : Type.

Variable lib : Library.

(** The plotting calls on a figure: they return it or raise. *)
Definition draw (fig : Figure) : Outcome Figure :=
  match draw_error lib fig with
  | Some e => Raise e
  | None => Ok fig
  end.

(** Create a horizontal bar chart. *)
Definition _create_bar_chart (data : PlotData) (title ylabel : string)
    : Outcome Figure :=
  draw {| fig_kind := barh; fig_data := data; fig_title := title;
          fig_xlabel := ylabel; fig_ylabel := "" |}.

(** Create a histogram.  [ax.hist] takes the range of its bins from the
    least and the greatest cell and raises [ValueError] when that range is
    not finite. *)
Definition _create_histogram (data : Series) (title xlabel : string)
    : Outcome Figure :=
  let cells := dropna data in
  if has_infinite cells then Raise ValueError
  else draw {| fig_kind := hist 20; fig_data := Cells cells; fig_title := title;
               fig_xlabel := xlabel; fig_ylabel := "Frequency" |}.

Record InsightsEngine : Type := {
  schema : list (string * Any)
}.

Definition __init__ (global_schema : option (list (string * Any))) : InsightsEngine :=
  {| schema := match global_schema with
               | Some s => s
               | None => []
               end |}.

(** Determine which insight blocks to apply. *)
Definition _infer_blocks (self : InsightsEngine) (question sql : string)
    (df : DataFrame) : list Block :=
  let q_lower := lower question in
  let sql_lower := lower sql in
  let cols := map lower (columns df) in
  let blocks := [] in
  let blocks :=
    if existsb (fun kw => str_in kw q_lower || str_in kw sql_lower)
         ["delivery"; "late"; "delay"; "shipped"]
    then if existsb (fun c => str_in "delivery" c || str_in "late" c) cols
         then (blocks ++ [delivery_block])%list else blocks
    else blocks in
  let blocks :=
    if existsb (fun kw => str_in kw q_lower || str_in kw sql_lower)
         ["payment"; "revenue"; "price"; "value"]
    then if existsb (fun c => str_in "payment" c || str_in "price" c
                              || str_in "value" c || str_in "revenue" c) cols
         then (blocks ++ [payment_block])%list else blocks
    else blocks in
  let blocks :=
    if existsb (fun kw => str_in kw q_lower || str_in kw sql_lower)
         ["review"; "rating"; "score"; "feedback"]
    then if existsb (fun c => str_in "review" c || str_in "score" c
                              || str_in "rating" c) cols
         then (blocks ++ [review_block])%list else blocks
    else blocks in
  blocks.

(** Analyze delivery performance. *)
Definition _delivery_block (self : InsightsEngine) (df : DataFrame)
    (question sql : string) : Outcome (option BlockResult) :=
  let late_col := find (fun c => str_in "late" (lower c)) (columns df) in
  let delivery_col :=
    find (fun c => str_in "delivery" (lower c) && negb (str_in "date" (lower c)))
         (columns df) in
  if negb (truthy late_col) && negb (truthy delivery_col) then Ok None
  else
    '(kpis, narrative_points) <-
      match late_col with
      | Some lc =>
          if truthy late_col then
            col <- getitem df lc ;;
            if dtype_in (dtype col) [py_int; py_float; py_bool] then
              m <- mean (float_sum lib) col ;;
              let late_rate := mul m f100 in
              late_count <- sum (float_sum lib) col ;;
              n <- int_of late_count ;;
              Ok ([ {| metric := "Late Delivery Rate";
                       value := format_f false 1 late_rate ++ "%";
                       change := ""; icon := "🚚" |};
                    {| metric := "Late Deliveries";
                       value := format_int_comma n;
                       change := ""; icon := "⚠️" |} ],
                  [ if gtb late_rate f10
                    then "**High late delivery rate** at "
                         ++ format_f false 1 late_rate
                         ++ "% - consider logistics optimization"
                    else "Delivery performance is **good** with "
                         ++ format_f false 1 late_rate ++ "% late rate" ])
            else Ok ([], [])
          else Ok ([], [])
      | None => Ok ([], [])
      end ;;
    let state_col := find (fun c => str_in "state" (lower c)) (columns df) in
    chart <-
      match state_col, late_col with
      | Some sc, Some lc =>
          if truthy state_col && truthy late_col && (1 <? len df)%nat then
            by_ <- getitem df sc ;;
            vals <- getitem df lc ;;
            data <- groupby_mean_top10 by_ vals ;;
            fig <- _create_bar_chart data "Late Delivery Rate by State"
                                     "Late Rate" ;;
            Ok (Some fig)
          else Ok None
      | _, _ => Ok None
      end ;;
    Ok (Some {| res_kpis := kpis;
                res_narrative := bullets narrative_points;
                res_chart := chart;
                res_derivation := "Delivery analysis" |}).

(** Analyze payment and revenue data. *)
Definition _payment_block (self : InsightsEngine) (df : DataFrame)
    (question sql : string) : Outcome (option BlockResult) :=
  let value_cols :=
    filter (fun c => existsb (fun kw => str_in kw (lower c))
                       ["value"; "price"; "revenue"; "payment"])
           (columns df) in
  match value_cols with
  | [] => Ok None
  | value_col :: _ =>
      col <- getitem df value_col ;;
      if negb (dtype_in (dtype col) [py_int; py_float]) then Ok None
      else
        total <- sum (float_sum lib) col ;;
        avg <- mean (float_sum lib) col ;;
        med <- median col ;;
        let kpis :=
          [ {| metric := "Total Value";
               value := "$" ++ format_f true 0 (to_float total);
               change := ""; icon := "💰" |};
            {| metric := "Average";
               value := "$" ++ format_f true 2 avg;
               change := ""; icon := "📊" |} ] in
        let narrative_points :=
          if gtb avg (mul med f1_5)
          then ["**Right-skewed distribution** - few high-value transactions pull up the average"]
          else [] in
        let groupby_col :=
          find (fun c => list_in (lower c)
                           ["category"; "state"; "type";
                            "product_category_name"; "payment_type"])
               (columns df) in
        '(narrative_points, chart) <-
          match groupby_col with
          | Some gc =>
              if truthy groupby_col then
                keys <- getitem df gc ;;
                if (1 <? nunique keys)%nat then
                  let top_data := GroupedTop10 agg_sum keys col in
                  let '(top_name, top_value) := groupby_sum_top lib keys col in
                  let top_pct :=
                    mul (div (to_float top_value) (to_float total)) f100 in
                  fig <- _create_bar_chart top_data ("Top 10 by " ++ gc)
                                           value_col ;;
                  Ok (List.app narrative_points
                        [ "**Top performer:** " ++ top_name ++ " contributes $"
                          ++ format_f true 0 (to_float top_value)
                          ++ " (" ++ format_f false 1 top_pct ++ "%)" ],
                      Some fig)
                else Ok (narrative_points, None)
              else Ok (narrative_points, None)
          | None => Ok (narrative_points, None)
          end ;;
        Ok (Some {| res_kpis := kpis;
                    res_narrative := bullets narrative_points;
                    res_chart := chart;
                    res_derivation := "Payment analysis" |})
  end.

(** Analyze review scores. *)
Definition _review_block (self : InsightsEngine) (df : DataFrame)
    (question sql : string) : Outcome (option BlockResult) :=
  let score_col :=
    find (fun c => str_in "score" (lower c) || str_in "rating" (lower c))
         (columns df) in
  match score_col with
  | None => Ok None
  | Some sc =>
      if negb (truthy score_col) then Ok None
      else
        col <- getitem df sc ;;
        if negb (dtype_in (dtype col) [py_int; py_float]) then Ok None
        else
          avg_score <- mean (float_sum lib) col ;;
          high_scores <- count_ge col 4 ;;
          low_scores <- count_le col 2 ;;
          let kpis :=
            [ {| metric := "Avg Review Score";
                 value := format_f false 2 avg_score ++ "/5";
                 change := ""; icon := "⭐" |};
              {| metric := "High Ratings (4-5)";
                 value := format_int_comma high_scores;
                 change := ""; icon := "👍" |} ] in
          let narrative_points :=
            if geb avg_score f4
            then ["**Excellent** customer satisfaction with high average rating"]
            else if ltb avg_score f3
            then ["**Concerning** low average rating - investigate quality issues"]
            else [] in
          let narrative_points :=
            if (0 <? low_scores)%Z
            then List.app narrative_points
                   [format_int_comma low_scores ++ " low ratings (≤2) require attention"]
            else narrative_points in
          chart <-
            (if (10 <? len df)%nat
             then fig <- _create_histogram col "Review Score Distribution" sc ;;
                  Ok (Some fig)
             else Ok None) ;;
          Ok (Some {| res_kpis := kpis;
                      res_narrative := bullets narrative_points;
                      res_chart := chart;
                      res_derivation := "Review analysis" |})
  end.

(** Generic statistics for any result set. *)
Definition _generic_stats (self : InsightsEngine) (df : DataFrame)
    : list KPI * string :=
  let kpis :=
    [ {| metric := "Rows Returned";
         value := format_int_comma (Z.of_nat (len df));
         change := ""; icon := "📋" |};
      {| metric := "Columns";
         value := digits (N.of_nat (length (columns df)));
         change := ""; icon := "📊" |} ] in
  let numeric_cols := numeric_columns df in
  let kpis :=
    if (0 <? length numeric_cols)%nat
    then (kpis ++ [ {| metric := "Numeric Fields";
                       value := digits (N.of_nat (length numeric_cols));
                       change := ""; icon := "🔢" |} ])%list
    else kpis in
  let narrative :=
    "- Result contains **" ++ format_int_comma (Z.of_nat (len df))
    ++ " rows** across **" ++ digits (N.of_nat (length (columns df)))
    ++ " columns**" in
  let narrative :=
    if (0 <? length numeric_cols)%nat
    then narrative ++ nl ++ "- " ++ digits (N.of_nat (length numeric_cols))
         ++ " numeric field(s) available for aggregation"
    else narrative in
  (kpis, narrative).

(** [block(df, question, sql)] for a selected block. *)
Definition call (self : InsightsEngine) (block : Block) (df : DataFrame)
    (question sql : string) : Outcome (option BlockResult) :=
  match block with
  | delivery_block => _delivery_block self df question sql
  | payment_block => _payment_block self df question sql
  | review_block => _review_block self df question sql
  end.

(** The four accumulators of [run]. *)
Record Acc : Type := {
  kpis_list : list KPI;
  narratives : list string;
  charts_acc : list Figure;
  derivations : list string
}.

Definition acc0 : Acc :=
  {| kpis_list := []; narratives := []; charts_acc := []; derivations := [] |}.

(** The body of the loop over the selected blocks, for one result. *)
Definition absorb (acc : Acc) (result : option BlockResult) : Acc :=
  match result with
  | None => acc
  | Some r =>
      {| kpis_list := (kpis_list acc ++ res_kpis r)%list;
         narratives :=
           if negb (String.eqb (res_narrative r) "")
           then (narratives acc ++ [res_narrative r])%list else narratives acc;
         charts_acc :=
           match res_chart r with
           | Some c => (charts_acc acc ++ [c])%list
           | None => charts_acc acc
           end;
         derivations :=
           if negb (String.eqb (res_derivation r) "")
           then (derivations acc ++ [res_derivation r])%list else derivations acc |}
  end.

(** The loop of [run], with the invocation of a block as a parameter. *)
Fixpoint run_blocks (invoke : Block -> Outcome (option BlockResult))
    (blocks : list Block) (acc : Acc) : Outcome Acc :=
  match blocks with
  | [] => Ok acc
  | block :: rest =>
      result <- invoke block ;;
      run_blocks invoke rest (absorb acc result)
  end.

(** What [run] builds from the accumulators once the loop is over. *)
Definition finish (self : InsightsEngine) (df : DataFrame) (acc : Acc)
    : InsightArtifacts :=
  let '(kpis_list, narratives) :=
    match kpis_list acc with
    | [] =>
        let generic := _generic_stats self df in
        (fst generic, (narratives acc ++ [snd generic])%list)
    | _ => (kpis_list acc, narratives acc)
    end in
  {| kpis := kpis_list;
     narrative := join (nl ++ nl) narratives;
     charts := firstn 2 (charts_acc acc);
     derivation :=
       match derivations acc with
       | [] => "Generic analysis"
       | _ => join " → " (derivations acc)
       end |}.

Definition run_with (invoke : Block -> Outcome (option BlockResult))
    (self : InsightsEngine) (question sql : string) (df : DataFrame)
    : Outcome InsightArtifacts :=
  if empty df then
    Ok {| kpis := [];
          narrative := "*No data returned to analyze.*";
          charts := [];
          derivation := "Empty result set" |}
  else
    let blocks := _infer_blocks self question sql df in
    acc <- run_blocks invoke blocks acc0 ;;
    Ok (finish self df acc).

(** Generate insights from query results. *)
Definition run (self : InsightsEngine) (question sql : string) (df : DataFrame)
    : Outcome InsightArtifacts :=
  run_with (fun block => call self block df question sql) self question sql df.

End Engine.

Arguments schema {Any} _.
Arguments __init__ {Any} global_schema.
Arguments _infer_blocks {Any} self question sql df.
Arguments _delivery_block {Any} lib self df question sql.
Arguments _payment_block {Any} lib self df question sql.
Arguments _review_block {Any} lib self df question sql.
Arguments _generic_stats {Any} self df.
Arguments call {Any} lib self block df question sql.
Arguments finish {Any} self df acc.
Arguments run_with {Any} invoke self question sql df.
Arguments run {Any} lib self question sql df.

End Insights.

(* ================================================================== *)
(** ** Vocabulary of the specification

    The notions the statements below are phrased in: the selector's tables as
    the specification lists them, substring occurrence, the results of the
    invoked blocks taken together, and the tiles of the generic fallback. *)

Module Spec.
Import Text F64 Pandas Insights.

(** [kw] occurs in [s] as a contiguous substring. *)
Definition occurs (kw s : string) : Prop :=
  exists pre post : string, s = pre ++ kw ++ post.

(** Keyword set of a block kind. *)
Definition keywords (k : Block) : list string :=
  match k with
  | delivery_block => ["delivery"; "late"; "delay"; "shipped"]
  | payment_block => ["payment"; "revenue"; "price"; "value"]
  | review_block => ["review"; "rating"; "score"; "feedback"]
  end.

(** Column markers of a block kind. *)
Definition markers (k : Block) : list string :=
  match k with
  | delivery_block => ["delivery"; "late"]
  | payment_block => ["payment"; "price"; "value"; "revenue"]
  | review_block => ["review"; "score"; "rating"]
  end.

(** The fixed priority order of the block kinds. *)
Definition priority : list Block := [delivery_block; payment_block; review_block].

(** Conditions (a) and (b) of the selector for one block kind. *)
Definition selected (question sql : string) (cols : list string) (k : Block) : bool :=
  existsb (fun kw => str_in kw (lower question) || str_in kw (lower sql)) (keywords k)
  && existsb (fun c => existsb (fun m => str_in m (lower c)) (markers k)) cols.

Definition select (question sql : string) (cols : list string) : list Block :=
  filter (selected question sql cols) priority.

(** Invoking the blocks of a list in order; the first exception ends it. *)
Fixpoint invoke_all (invoke : Block -> Outcome (option BlockResult))
    (blocks : list Block) : Outcome (list (option BlockResult)) :=
  match blocks with
  | [] => Ok []
  | b :: rest =>
      r <- invoke b ;;
      rs <- invoke_all invoke rest ;;
      Ok (r :: rs)
  end.

(** The charts and the derivation labels of a sequence of block results,
    in invocation order. *)
Definition produced_charts (results : list (option BlockResult)) : list Figure :=
  flat_map (fun r => match r with
                     | Some {| res_chart := Some c |} => [c]
                     | _ => []
                     end) results.

Definition labels (results : list (option BlockResult)) : list string :=
  flat_map (fun r => match r with
                     | Some b => [res_derivation b]
                     | None => []
                     end) results.

Definition tile (m v i : string) : KPI :=
  {| metric := m; value := v; change := ""; icon := i |}.

(** The tiles and the narrative of the generic fallback. *)
Definition generic_tiles (df : DataFrame) : list KPI :=
  [ tile "Rows Returned" (format_int_comma (Z.of_nat (len df))) "📋";
    tile "Columns" (digits (N.of_nat (length (columns df)))) "📊" ]
  ++ match numeric_columns df with
     | [] => []
     | _ => [ tile "Numeric Fields"
                   (digits (N.of_nat (length (numeric_columns df)))) "🔢" ]
     end.

Definition generic_narrative (df : DataFrame) : string :=
  "- Result contains **" ++ format_int_comma (Z.of_nat (len df))
  ++ " rows** across **" ++ digits (N.of_nat (length (columns df)))
  ++ " columns**"
  ++ match numeric_columns df with
     | [] => ""
     | _ => nl ++ "- " ++ digits (N.of_nat (length (numeric_columns df)))
            ++ " numeric field(s) available for aggregation"
     end.

(** A column's sum converts to an integer: always for integers and
    booleans, for floats when the sum is finite. *)
Definition finite_sum (float_sum : Series -> float) (col : Series) : bool :=
  match col with
  | Float64 xs =>
      match float_sum col with
      | S754_nan | S754_infinity _ => false
      | _ => true
      end
  | _ => true
  end.


(** A tile without a change text and with a glyph. *)
Definition plain_tile (k : KPI) : Prop :=
  change k = "" /\ icon k <> "".

(** What holds of every result a block returns: a derivation label, plain
    tiles, and no narrative without tiles. *)
Definition well_shaped (result : option BlockResult) : Prop :=
  match result with
  | None => True
  | Some r =>
      res_derivation r <> ""
      /\ Forall plain_tile (res_kpis r)
      /\ (res_kpis r = [] -> res_narrative r = "")
  end.

(** The characters a formatted number is written with. *)
Definition number_chars : string := "0123456789.,-nainf".

Definition chars (s : string) : list ascii := list_ascii_of_string s.

(** The artifact of an empty result set. *)
Definition empty_artifact : InsightArtifacts :=
  {| kpis := [];
     narrative := "*No data returned to analyze.*";
     charts := [];
     derivation := "Empty result set" |}.

End Spec.

(* ================================================================== *)
(** ** Sample inputs *)

Module Examples.
Import Text F64 Pandas Insights.

(** A stand-in for the leading group of a grouped sum. *)
Definition constant_top : Series -> Series -> string * Number :=
  fun _ _ => ("SP", NumInt 0).

(** Summation in the order of numpy's [add.reduce] on a contiguous array:
    fewer than eight cells are added from the left; up to 128 cells are
    added into eight running sums, which are then combined in pairs, and
    the cells left over are added last; a longer array is cut in two. *)
Definition add8 (r xs : list float) : list float :=
  map (fun p => add (fst p) (snd p)) (combine r xs).

Fixpoint sum_blocks (k : nat) (r xs : list float) : list float * list float :=
  match k with
  | O => (r, xs)
  | S k' => sum_blocks k' (add8 r (firstn 8 xs)) (skipn 8 xs)
  end.

Definition sum_unrolled (xs : list float) : float :=
  let n := length xs in
  let '(r, rest) := sum_blocks (n / 8 - 1) (firstn 8 xs) (skipn 8 xs) in
  let at_ i := nth i r zero in
  fold_left add rest
    (add (add (add (at_ 0%nat) (at_ 1%nat)) (add (at_ 2%nat) (at_ 3%nat)))
         (add (add (at_ 4%nat) (at_ 5%nat)) (add (at_ 6%nat) (at_ 7%nat)))).

Fixpoint pairwise_sum (fuel : nat) (xs : list float) : float :=
  let n := length xs in
  if (n <? 8)%nat then fold_left add xs zero
  else if (n <=? 128)%nat then sum_unrolled xs
  else match fuel with
       | O => sum_unrolled xs
       | S fuel' =>
           let n2 := (n / 2 - (n / 2) mod 8)%nat in
           add (pairwise_sum fuel' (firstn n2 xs)) (pairwise_sum fuel' (skipn n2 xs))
       end.

Definition np_sum (s : Series) : float :=
  match s with
  | Int64 xs => pairwise_sum (length xs) (map of_Z xs)
  | Float64 xs =>
      pairwise_sum (length xs) (map (fun x => if is_nan x then zero else x) xs)
  | _ => zero
  end.

(** A library that adds in that order, names one leading group and draws
    every figure. *)
Definition lib : Library :=
  {| float_sum := np_sum;
     groupby_sum_top := constant_top;
     draw_error := fun _ => None |}.

Definition engine : InsightsEngine string := __init__ None.

Definition df_empty : DataFrame := {| index_len := 0; data := [] |}.

(** Ten deliveries, one late; and ten deliveries, two late. *)
Definition df_late_1_of_10 : DataFrame :=
  {| index_len := 10;
     data := [("is_late", Bool [true; false; false; false; false;
                                false; false; false; false; false])] |}.

Definition df_late_2_of_10 : DataFrame :=
  {| index_len := 10;
     data := [("is_late", Bool [true; true; false; false; false;
                                false; false; false; false; false])] |}.


(** A late indicator stored as text, next to a state column. *)
Definition df_text_late : DataFrame :=
  {| index_len := 2;
     data := [("is_late", Object [Some "yes"; Some "no"]);
              ("state", Object [Some "SP"; Some "RJ"])] |}.

(** A delivery column and no late indicator. *)
Definition df_delivery_days : DataFrame :=
  {| index_len := 2; data := [("delivery_days", Int64 [3; 5]%Z)] |}.

(** A float late indicator whose sum overflows. *)
Definition df_late_overflow : DataFrame :=
  {| index_len := 2;
     data := [("is_late", Float64 [of_Z (10 ^ 308); of_Z (10 ^ 308)])] |}.

(** A float late indicator with fractional cells. *)
Definition df_late_fraction : DataFrame :=
  {| index_len := 2;
     data := [("late_share", Float64 [div (of_Z 1) (of_Z 2);
                                      div (of_Z 3) (of_Z 4)])] |}.

(** Eleven orders on which all three blocks draw a chart. *)
Definition df_three_charts : DataFrame :=
  {| index_len := 11;
     data := [("state", Object [Some "SP"; Some "RJ"; Some "SP"; Some "SP";
                                Some "RJ"; Some "MG"; Some "SP"; Some "RJ";
                                Some "SP"; Some "MG"; Some "SP"]);
              ("is_late", Bool [true; false; false; false; true; false;
                                false; false; false; false; false]);
              ("order_value", Int64 [100; 250; 80; 120; 300; 90;
                                     60; 410; 75; 130; 55]%Z);
              ("review_score", Int64 [5; 4; 1; 5; 3; 4; 5; 2; 4; 5; 3]%Z)] |}.

Definition df_reviews : DataFrame :=
  {| index_len := 3;
     data := [("review_score", Int64 [5; 4; 1]%Z);
              ("comment", Object [Some "great"; None; Some "broken"])] |}.


(** Eight late shares that add up to 0.8 in numpy's order of additions and
    to a little more from the left. *)
Definition df_late_shares : DataFrame :=
  {| index_len := 8;
     data := [("late_share",
               Float64 [div (of_Z 13) (of_Z 100); div (of_Z 7) (of_Z 100);
                        div (of_Z 2) (of_Z 10); div (of_Z 8) (of_Z 100);
                        div (of_Z 8) (of_Z 100); div (of_Z 7) (of_Z 100);
                        div (of_Z 5) (of_Z 100); div (of_Z 12) (of_Z 100)])] |}.

End Examples.

(* ================================================================== *)
(** ** Further result sets *)

Module Cases.
Import Text Pandas Insights.

(** Payments whose method column precedes the amount: the first column
    with a value marker in its name holds text. *)
Definition df_payment_type_first : DataFrame :=
  {| index_len := 3;
     data := [("payment_type", Object [Some "credit_card"; Some "boleto";
                                       Some "credit_card"]);
              ("price", Int64 [120; 80; 310]%Z)] |}.

End Cases.

(* ================================================================== *)
(** ** Vocabulary for the merge of block results *)

Module Merge.
Import Text Pandas Insights.

(** The tiles and the non-empty narrative fragments of a sequence of block
    results, in invocation order. *)
Definition tiles_of (results : list (option BlockResult)) : list KPI :=
  flat_map (fun r => match r with
                     | Some b => res_kpis b
                     | None => []
                     end) results.

Definition fragments_of (results : list (option BlockResult)) : list string :=
  flat_map (fun r => match r with
                     | Some b => if String.eqb (res_narrative b) "" then []
                                 else [res_narrative b]
                     | None => []
                     end) results.

(** The keywords of all three block kinds. *)
Definition all_keywords : list string :=
  (Spec.keywords delivery_block ++ Spec.keywords payment_block
   ++ Spec.keywords review_block)%list.

(** The column markers of all three block kinds. *)
Definition all_markers : list string :=
  (Spec.markers delivery_block ++ Spec.markers payment_block
   ++ Spec.markers review_block)%list.

End Merge.

(* ================================================================== *)
(** ** The schema text parser of the notebook bridge

    [notebook_bridge.py], [NotebookBridge._parse_schema_text]: one table per
    line of the form [name(col, col, ...)].  The separators are ASCII
    characters, so [split] cuts the bytes where [str.split] cuts the
    characters; [strip] removes the white space of [str.isspace], which a
    text begins or ends with as characters exactly when its bytes begin or
    end with the bytes of such a character. *)

Module Bridge.
Import Text.

(** [s.split(sep)] for a separator [sep] of one character. *)
Fixpoint split (sep : ascii) (s : string) : list string :=
  match s with
  | EmptyString => [EmptyString]
  | String c t =>
      if Ascii.eqb c sep then EmptyString :: split sep t
      else match split sep t with
           | h :: r => String c h :: r
           | [] => [String c EmptyString]
           end
  end.

Definition bytes (l : list nat) : string :=
  string_of_list_ascii (map ascii_of_nat l).

(** The characters for which [str.isspace] holds, each as its bytes:
    U+0009 to U+000D, U+001C to U+0020, U+0085, U+00A0, U+1680, U+2000 to
    U+200A, U+2028, U+2029, U+202F, U+205F and U+3000. *)
Definition whitespace : list string :=
  map bytes
      [ [9]; [10]; [11]; [12]; [13]; [28]; [29]; [30]; [31]; [32];
        [194; 133]; [194; 160]; [225; 154; 128];
        [226; 128; 128]; [226; 128; 129]; [226; 128; 130]; [226; 128; 131];
        [226; 128; 132]; [226; 128; 133]; [226; 128; 134]; [226; 128; 135];
        [226; 128; 136]; [226; 128; 137]; [226; 128; 138];
        [226; 128; 168]; [226; 128; 169]; [226; 128; 175];
        [226; 129; 159]; [227; 128; 128] ]%nat.

(** What follows the prefix [p] in [s], when [s] begins with [p]. *)
Fixpoint drop_prefix (p s : string) : option string :=
  match p, s with
  | EmptyString, _ => Some s
  | String a p', String b s' => if Ascii.eqb a b then drop_prefix p' s' else None
  | String _ _, EmptyString => None
  end.

(** What follows the first of the prefixes [ps] that [s] begins with. *)
Fixpoint drop_first (ps : list string) (s : string) : option string :=
  match ps with
  | [] => None
  | p :: ps' =>
      match drop_prefix p s with
      | Some rest => Some rest
      | None => drop_first ps' s
      end
  end.

(** Removing leading occurrences of the prefixes [ps], at most [fuel] of
    them. *)
Fixpoint strip_left (ps : list string) (fuel : nat) (s : string) : string :=
  match fuel with
  | O => s
  | S fuel' =>
      match drop_first ps s with
      | Some rest => strip_left ps fuel' rest
      | None => s
      end
  end.

Definition reversed (s : string) : string :=
  string_of_list_ascii (rev (list_ascii_of_string s)).

(** [s.lstrip()] and [s.rstrip()] *)
Definition lstrip (s : string) : string :=
  strip_left whitespace (String.length s) s.

Definition rstrip (s : string) : string :=
  reversed (strip_left (map reversed whitespace) (String.length s) (reversed s)).

(** [s.strip()] *)
Definition strip (s : string) : string := rstrip (lstrip s).

(** A column entry, [{"name": ..., "type": ...}]. *)
Record Column : Type := {
  col_name : string;
  col_type : string
}.

(** The [tables] dictionary: keys in insertion order. *)
Definition Tables : Type := list (string * list Column).

(** [d[k] = v]: replaces the value of a present key in place, appends a new
    key. *)
Fixpoint dict_set {V : Type} (k : string) (v : V) (d : list (string * V))
    : list (string * V) :=
  match d with
  | [] => [(k, v)]
  | (k', v') :: rest =>
      if String.eqb k' k then (k, v) :: rest else (k', v') :: dict_set k v rest
  end.

(** [d.get(k)] *)
Fixpoint dict_get {V : Type} (k : string) (d : list (string * V)) : option V :=
  match d with
  | [] => None
  | (k', v) :: rest => if String.eqb k' k then Some v else dict_get k rest
  end.

(** The body of the loop over the lines.  [None] stands for the
    [IndexError] of an index out of range. *)
Definition parse_line (tables : Tables) (line : string) : option Tables :=
  if str_in "(" line && str_in ")" line then
    match nth_error (split "(" line) 0, nth_error (split "(" line) 1 with
    | Some before, Some after =>
        let table_name := strip before in
        match nth_error (split ")" after) 0 with
        | Some columns_text =>
            let columns :=
              map (fun col => {| col_name := strip col; col_type := "TEXT" |})
                  (split "," columns_text) in
            Some (dict_set table_name columns tables)
        | None => None
        end
    | _, _ => None
    end
  else Some tables.

Fixpoint parse_lines (tables : Tables) (lines : list string) : option Tables :=
  match lines with
  | [] => Some tables
  | line :: rest =>
      match parse_line tables line with
      | Some tables' => parse_lines tables' rest
      | None => None
      end
  end.

(** Parse schema text into structured format. *)
Definition _parse_schema_text (schema_text : string) : option Tables :=
  let tables := [] in
  let lines := split (ascii_of_nat 10) schema_text in
  parse_lines tables lines.

(** The columns that a column list gives. *)
Definition columns_of (body : string) : list Column :=
  map (fun col => {| col_name := strip col; col_type := "TEXT" |}) (split "," body).

(** The canonical text of a table and of a schema: [name(c1, c2, ...)], one
    table per line. *)
Definition render_table (t : string * list string) : string :=
  fst t ++ "(" ++ join ", " (snd t) ++ ")".

Definition render_schema (ts : list (string * list string)) : string :=
  join nl (map render_table ts).

Definition text_columns (cols : list string) : list Column :=
  map (fun c => {| col_name := c; col_type := "TEXT" |}) cols.

(** A name that the canonical text keeps: no parenthesis, comma or line
    break in it, and no white space at either end. *)
Definition clean (s : string) : Prop :=
  (forall c, In c (list_ascii_of_string s) ->
             c <> "("%char /\ c <> ")"%char /\ c <> ","%char
             /\ c <> ascii_of_nat 10)
  /\ strip s = s.

End Bridge.

(* ================================================================== *)
(** ** The handlers of the console that use the engine

    [app.py]: [run_with_results], which shows the insights of a query, and
    the history of saved questions ([add_history], [format_history] and the
    two handlers of the history buttons); [adapters.py]:
    [NL2SQLAdapters.analyze_results].  What these reach through the notebook
    bridge is a parameter: the SQL generator and executor of the console,
    the adapter, the clock; so are the libraries under the engine. *)

Module App.
Import Text Pandas Insights.

(** The double quote character. *)
Definition dq : string := String (ascii_of_nat 34) EmptyString.

(** One tile of the insights panel. *)
Definition kpi_tile (kpi : KPI) : string :=
  "<div class=" ++ dq ++ "kpi-tile" ++ dq ++ ">"
  ++ "<div class=" ++ dq ++ "kpi-icon" ++ dq ++ ">" ++ icon kpi ++ "</div>"
  ++ "<div class=" ++ dq ++ "kpi-value" ++ dq ++ ">" ++ value kpi ++ "</div>"
  ++ "<div class=" ++ dq ++ "kpi-label" ++ dq ++ ">" ++ metric kpi ++ "</div>"
  ++ "</div>".

(** [pd.DataFrame()] *)
Definition no_frame : DataFrame := {| index_len := 0; data := [] |}.

(** An entry of the history. *)
Record Entry : Type := {
  entry_timestamp : string;
  entry_question : string;
  entry_sql : string;
  entry_status : string
}.

(** The history list as an object: its entries, and with it the number of
    clock readings taken so far. *)
Record World : Type := {
  ticks : nat;
  history : list Entry
}.

(** [s[:n]]: the first [n] characters of [s]. *)
Definition slice_to (n : nat) (s : string) : string := take_chars n s.

(** [enumerate(l, 1)] *)
Definition enumerate1 {A : Type} (l : list A) : list (nat * A) :=
  combine (seq 1 (length l)) l.

(** A list comprehension whose body can raise. *)
Fixpoint map_outcome {A B : Type} (f : A -> Outcome B) (l : list A)
    : Outcome (list B) :=
  match l with
  | [] => Ok []
  | x :: t =>
      y <- f x ;;
      ys <- map_outcome f t ;;
      Ok (y :: ys)
  end.

Section Handlers.

Variable Any : Type.

(** The libraries under the engine. *)
Variable lib : Library.

(** [generate_sql(q, explain)] and [execute_sql(sql)] of the console. *)
Variable generate_sql : string -> bool -> string * string * string * string.
Variable execute_sql : string -> DataFrame * string * string.

(** The adapter, as far as the analysis uses it: its schema overview. *)
Record Adapter : Type := {
  get_global_schema : Outcome (list (string * Any))
}.

(** [get_adapter()]: the adapter, or the exception of its initialisation. *)
Variable get_adapter : Outcome Adapter.

(** [datetime.now().isoformat()] at the n-th reading of the clock. *)
Variable now_iso : nat -> string.

(** [datetime.fromisoformat(ts).strftime('%H:%M:%S')] *)
Variable clock_time : string -> Outcome string.

(** Generate insights from query results. *)
Definition analyze_results (self : Adapter) (question sql : string) (df : DataFrame)
    : Outcome InsightArtifacts :=
  global_schema <- get_global_schema self ;;
  let engine := __init__ (Some global_schema) in
  run lib engine question sql df.

Definition run_with_results (q : string) (explain : bool)
    : string * DataFrame * string * string * string * string
      * option Figure * option Figure :=
  let '(sql, expl, det, raw) := generate_sql q explain in
  if String.eqb sql "" || prefix "--" sql then
    (sql, no_frame, expl, det, raw, "", None, None)
  else
    let '(df, metrics, err) := execute_sql sql in
    let combined := det ++ nl ++ metrics ++ nl ++ err in
    let '(insights_html, chart1, chart2) :=
      if negb (empty df) then
        match (adp <- get_adapter ;; analyze_results adp q sql df) with
        | Ok artifacts =>
            let insights_html :=
              match kpis artifacts with
              | [] => ""
              | _ =>
                  let tiles := map kpi_tile (kpis artifacts) in
                  "<div class='kpi-container'>" ++ join "" tiles ++ "</div>"
                  ++ nl ++ nl ++ narrative artifacts
              end in
            (insights_html, nth_error (charts artifacts) 0,
             nth_error (charts artifacts) 1)
        | Raise _ => ("", None, None)
        end
      else ("", None, None) in
    (sql, df, expl, combined, raw, insights_html, chart1, chart2).

(** [add_history(h, q, sql, status)]: appends to the list [h] itself and
    returns it. *)
Definition add_history (h : World) (q sql status : string) : World :=
  {| ticks := S (ticks h);
     history :=
       (history h ++ [ {| entry_timestamp := now_iso (ticks h);
                          entry_question := q;
                          entry_sql := sql;
                          entry_status := status |} ])%list |}.

Definition format_history (h : list Entry) : Outcome string :=
  match h with
  | [] => Ok "*No history*"
  | _ =>
      lines <- map_outcome
                 (fun ie : nat * Entry =>
                    t <- clock_time (entry_timestamp (snd ie)) ;;
                    Ok ("**" ++ digits (N.of_nat (fst ie)) ++ ".** `" ++ t ++ "` - "
                        ++ slice_to 50 (entry_question (snd ie))))
                 (enumerate1 (rev h)) ;;
      Ok (join (nl ++ nl) lines)
  end.

(** The handler of the save button,
    [lambda h, q, s: (add_history(h, q, s, "success"),
                      format_history(add_history(h, q, s, "success")))]:
    both calls append to the one list [h], which is also the first component
    of the pair. *)
Definition save_history (h : World) (q s : string) : Outcome (World * string) :=
  let h1 := add_history h q s "success" in
  let h2 := add_history h1 q s "success" in
  text <- format_history (history h2) ;;
  Ok (h2, text).

End Handlers.

Arguments get_global_schema {Any} _.
Arguments analyze_results {Any} lib self question sql df.
Arguments run_with_results {Any} lib generate_sql execute_sql get_adapter
  q explain.

End App.

(* ================================================================== *)
(** * Facts about the engine *)

Import Text F64 Pandas Insights Spec.

(** ** Strings *)

Lemma prefix_append (kw post : string) : prefix kw (kw ++ post) = true.
Proof.
  induction kw as [|c kw IH]; simpl.
  - destruct post; reflexivity.
  - destruct (ascii_dec c c) as [_|ne]; [exact IH | now elim ne].
Qed.

Lemma prefix_split (kw s : string) :
  prefix kw s = true -> exists post, s = kw ++ post.
Proof.
  revert kw; induction s as [|b s IH]; intros [|a kw] H; simpl in H.
  - now exists "".
  - discriminate.
  - now exists (String b s).
  - destruct (ascii_dec a b) as [->|]; [|discriminate].
    destruct (IH _ H) as [post ->]. now exists post.
Qed.

Lemma str_in_nil (kw : string) : str_in kw "" = prefix kw "".
Proof. unfold str_in. apply orb_false_r. Qed.

Lemma str_in_cons (kw : string) (c : ascii) (s : string) :
  str_in kw (String c s) = prefix kw (String c s) || str_in kw s.
Proof. reflexivity. Qed.

Lemma str_in_occurs (kw s : string) : str_in kw s = true <-> occurs kw s.
Proof.
  split.
  - induction s as [|c s IH]; intros H.
    + rewrite str_in_nil in H. destruct (prefix_split _ _ H) as [post E].
      now exists "", post.
    + rewrite str_in_cons in H. apply orb_true_iff in H as [H|H].
      * destruct (prefix_split _ _ H) as [post E]. now exists "", post.
      * destruct (IH H) as (pre & post & ->). now exists (String c pre), post.
  - intros (pre & post & ->).
    induction pre as [|c pre IH].
    + change ("" ++ kw ++ post) with (kw ++ post).
      destruct (kw ++ post) eqn:E.
      * rewrite str_in_nil, <- E. apply prefix_append.
      * rewrite str_in_cons, <- E, prefix_append. reflexivity.
    + change (String c pre ++ kw ++ post) with (String c (pre ++ kw ++ post)).
      rewrite str_in_cons, IH. apply orb_true_r.
Qed.

Lemma existsb_map_comp {A B : Type} (f : B -> bool) (g : A -> B) (l : list A) :
  existsb f (map g l) = existsb (fun x => f (g x)) l.
Proof.
  induction l as [|x l IH]; simpl; [reflexivity | now rewrite IH].
Qed.

Lemma existsb_pointwise {A : Type} (f g : A -> bool) (l : list A) :
  (forall x, f x = g x) -> existsb f l = existsb g l.
Proof.
  intros E. induction l as [|x l IH]; simpl; [reflexivity | now rewrite E, IH].
Qed.

(** ** The block selector *)

Lemma selected_iff (question sql : string) (cols : list string) (k : Block) :
  selected question sql cols k = true <->
  (exists kw, In kw (keywords k)
              /\ (occurs kw (lower question) \/ occurs kw (lower sql)))
  /\ (exists c m, In c cols /\ In m (markers k) /\ occurs m (lower c)).
Proof.
  unfold selected. rewrite andb_true_iff, !existsb_exists.
  split; intros [H1 H2]; split.
  - destruct H1 as (kw & Hin & H). exists kw. split; [exact Hin|].
    apply orb_true_iff in H. now rewrite <- !str_in_occurs.
  - destruct H2 as (c & Hc & H). apply existsb_exists in H as (m & Hm & H).
    exists c, m. now rewrite <- str_in_occurs.
  - destruct H1 as (kw & Hin & H). exists kw. split; [exact Hin|].
    apply orb_true_iff. now rewrite !str_in_occurs.
  - destruct H2 as (c & m & Hc & Hm & H). exists c. split; [exact Hc|].
    apply existsb_exists. exists m. now rewrite str_in_occurs.
Qed.

Lemma infer_blocks_eq_select (Any : Type) (self : InsightsEngine Any)
    (question sql : string) (df : DataFrame) :
  _infer_blocks self question sql df = select question sql (columns df).
Proof.
  unfold _infer_blocks, select, priority. cbn [filter].
  unfold selected. cbn [keywords markers].
  rewrite !existsb_map_comp.
  set (kd := existsb _ ["delivery"; "late"; "delay"; "shipped"]).
  set (kp := existsb _ ["payment"; "revenue"; "price"; "value"]).
  set (kr := existsb _ ["review"; "rating"; "score"; "feedback"]).
  rewrite (existsb_pointwise
             (fun c => str_in "delivery" (lower c) || str_in "late" (lower c))
             (fun c => existsb (fun m => str_in m (lower c)) ["delivery"; "late"]))
    by (intros c; simpl; now rewrite orb_false_r).
  rewrite (existsb_pointwise
             (fun c => str_in "payment" (lower c) || str_in "price" (lower c)
                       || str_in "value" (lower c) || str_in "revenue" (lower c))
             (fun c => existsb (fun m => str_in m (lower c))
                         ["payment"; "price"; "value"; "revenue"]))
    by (intros c; simpl; now rewrite orb_false_r, !orb_assoc).
  rewrite (existsb_pointwise
             (fun c => str_in "review" (lower c) || str_in "score" (lower c)
                       || str_in "rating" (lower c))
             (fun c => existsb (fun m => str_in m (lower c))
                         ["review"; "score"; "rating"]))
    by (intros c; simpl; now rewrite orb_false_r, !orb_assoc).
  set (cd := existsb _ (columns df)).
  set (cp := existsb _ (columns df)).
  set (cr := existsb _ (columns df)).
  clearbody kd kp kr cd cp cr.
  destruct kd, cd, kp, cp, kr, cr; reflexivity.
Qed.

(** C3.  The block selector returns exactly the block kinds that meet both
    conditions of the specification, each kind decided on its own, and lists
    them in the fixed order delivery, payment, review: the result is the
    priority list filtered by the two conditions, where (a) is that a
    keyword of the kind occurs in the lower-cased question or SQL and (b)
    that a marker of the kind occurs in a lower-cased column name. *)
Theorem infer_blocks_select :
  forall (Any : Type) (self : InsightsEngine Any) (question sql : string)
         (df : DataFrame),
    _infer_blocks self question sql df = select question sql (columns df)
    /\ forall k : Block,
         In k (_infer_blocks self question sql df) <->
         (exists kw, In kw (keywords k)
                     /\ (occurs kw (lower question) \/ occurs kw (lower sql)))
         /\ (exists c m, In c (columns df) /\ In m (markers k)
                         /\ occurs m (lower c)).
Proof.
  intros Any self question sql df.
  pose proof (infer_blocks_eq_select Any self question sql df) as E.
  split; [exact E|].
  intros k. rewrite E. unfold select.
  rewrite filter_In, selected_iff.
  split; [tauto|]. intros H. split; [|exact H].
  unfold priority. destruct k; simpl; tauto.
Qed.

(** The Kelvin sign lower-cases to "k": a question that spells
    "feedback" with it selects the review block. *)
Lemma infer_blocks_kelvin_sign :
  lower "customer feedbacK" = "customer feedback"
  /\ _infer_blocks Examples.engine "customer feedbacK" "" Examples.df_reviews
     = [review_block].
Proof. split; vm_compute; reflexivity. Qed.

(** ** Stepping through a block

    [run_py H] evaluates the Python-level control flow in [H]: it opens the
    monadic binds and splits on the scrutinee at the head of the term until
    a result is reached. *)

Ltac spine_destruct x :=
  lazymatch x with
  | match ?y with _ => _ end => spine_destruct y
  | _ => destruct x eqn:?
  end.

Ltac head_step H :=
  lazymatch type of H with
  | (match ?x with _ => _ end) = _ =>
      spine_destruct x; cbv beta iota zeta in H; try discriminate H
  end.

Ltac run_py H :=
  unfold Py.bind in H; cbv beta iota zeta in H; repeat head_step H.

(** ** The shape of what the blocks return *)

Lemma delivery_shape (Any : Type) lib (self : InsightsEngine Any) df q s r :
  _delivery_block lib self df q s = Ok (Some r) ->
  res_derivation r = "Delivery analysis"
  /\ ((res_kpis r = [] /\ res_narrative r = "")
      \/ exists v1 v2 line,
           res_kpis r = [tile "Late Delivery Rate" v1 "🚚";
                         tile "Late Deliveries" v2 "⚠️"]
           /\ res_narrative r = bullets [line]).
Proof.
  intros H. unfold _delivery_block in H. run_py H.
  all: injection H as <-; split; [reflexivity|]; cbn [res_kpis res_narrative].
  all: try (left; split; reflexivity).
  all: right; do 3 eexists; split; reflexivity.
Qed.

Lemma payment_shape (Any : Type) lib (self : InsightsEngine Any) df q s r :
  _payment_block lib self df q s = Ok (Some r) ->
  res_derivation r = "Payment analysis"
  /\ exists v1 v2,
       res_kpis r = [tile "Total Value" v1 "💰"; tile "Average" v2 "📊"].
Proof.
  intros H. unfold _payment_block in H. run_py H.
  all: injection H as <-; split; [reflexivity|]; cbn [res_kpis].
  all: do 2 eexists; reflexivity.
Qed.

Lemma review_shape (Any : Type) lib (self : InsightsEngine Any) df q s r :
  _review_block lib self df q s = Ok (Some r) ->
  res_derivation r = "Review analysis"
  /\ exists v1 v2,
       res_kpis r = [tile "Avg Review Score" v1 "⭐";
                     tile "High Ratings (4-5)" v2 "👍"].
Proof.
  intros H. unfold _review_block in H. run_py H.
  all: injection H as <-; split; [reflexivity|]; cbn [res_kpis].
  all: do 2 eexists; reflexivity.
Qed.

Lemma call_well_shaped (Any : Type) lib (self : InsightsEngine Any) b df q s r :
  call lib self b df q s = Ok r -> well_shaped r.
Proof.
  destruct r as [r|]; [|easy]. destruct b; cbn [call]; intros H.
  - apply delivery_shape in H as [D [[K N]|(v1 & v2 & line & K & N)]];
      cbn [well_shaped]; rewrite D, K; repeat split; try discriminate; auto.
    repeat constructor; discriminate.
  - apply payment_shape in H as [D (v1 & v2 & K)];
      cbn [well_shaped]; rewrite D, K; repeat split; try discriminate.
    repeat constructor; discriminate.
  - apply review_shape in H as [D (v1 & v2 & K)];
      cbn [well_shaped]; rewrite D, K; repeat split; try discriminate.
    repeat constructor; discriminate.
Qed.

(** ** The loop over the selected blocks *)

Lemma run_blocks_ext (f g : Block -> Outcome (option BlockResult)) blocks acc :
  (forall b, f b = g b) -> run_blocks f blocks acc = run_blocks g blocks acc.
Proof.
  intros E. revert acc. induction blocks as [|b blocks IH]; intros acc; cbn [run_blocks].
  - reflexivity.
  - rewrite E. destruct (g b); cbn [Py.bind]; [apply IH | reflexivity].
Qed.

Lemma run_blocks_invoke_all invoke blocks acc :
  run_blocks invoke blocks acc =
  (rs <- invoke_all invoke blocks ;; Ok (fold_left absorb rs acc)).
Proof.
  revert acc. induction blocks as [|b blocks IH]; intros acc;
    cbn [run_blocks invoke_all].
  - reflexivity.
  - destruct (invoke b) as [r|e]; cbn [Py.bind]; [|reflexivity].
    rewrite IH. destruct (invoke_all invoke blocks); reflexivity.
Qed.

Lemma invoke_all_Forall invoke (Q : option BlockResult -> Prop) blocks rs :
  (forall b r, invoke b = Ok r -> Q r) ->
  invoke_all invoke blocks = Ok rs -> Forall Q rs.
Proof.
  intros HQ. revert rs. induction blocks as [|b blocks IH]; intros rs H;
    cbn [invoke_all] in H.
  - injection H as <-. constructor.
  - destruct (invoke b) as [r|e] eqn:Eb; cbn [Py.bind] in H; [|discriminate].
    destruct (invoke_all invoke blocks) as [rs'|e]; cbn [Py.bind] in H; [|discriminate].
    injection H as <-. constructor; [eapply HQ; eassumption | now apply IH].
Qed.

Lemma charts_fold rs acc :
  charts_acc (fold_left absorb rs acc) = (charts_acc acc ++ produced_charts rs)%list.
Proof.
  revert acc. induction rs as [|r rs IH]; intros acc; cbn [fold_left].
  - symmetry. apply app_nil_r.
  - rewrite IH. unfold produced_charts. cbn [flat_map].
    destruct r as [[k n [c|] d]|]; cbn [absorb charts_acc res_chart].
    + now rewrite <- app_assoc.
    + reflexivity.
    + reflexivity.
Qed.

Lemma kpis_fold rs acc :
  kpis_list (fold_left absorb rs acc) =
  (kpis_list acc
   ++ flat_map (fun r => match r with Some b => res_kpis b | None => [] end) rs)%list.
Proof.
  revert acc. induction rs as [|r rs IH]; intros acc; cbn [fold_left flat_map].
  - symmetry. apply app_nil_r.
  - rewrite IH. destruct r as [r|]; cbn [absorb kpis_list].
    + now rewrite <- app_assoc.
    + reflexivity.
Qed.

Lemma derivations_fold rs acc :
  Forall well_shaped rs ->
  derivations (fold_left absorb rs acc) = (derivations acc ++ labels rs)%list.
Proof.
  intros W. revert acc. induction W as [|r rs Wr _ IH]; intros acc; cbn [fold_left].
  - symmetry. apply app_nil_r.
  - rewrite IH. unfold labels. cbn [flat_map].
    destruct r as [r|]; cbn [absorb derivations].
    + destruct Wr as [D _]. apply String.eqb_neq in D. rewrite D. cbn [negb].
      now rewrite <- app_assoc.
    + reflexivity.
Qed.

Lemma narratives_fold rs acc :
  Forall well_shaped rs ->
  kpis_list (fold_left absorb rs acc) = [] ->
  narratives (fold_left absorb rs acc) = narratives acc.
Proof.
  intros W. revert acc. induction W as [|r rs Wr _ IH]; intros acc K; cbn [fold_left] in *.
  - reflexivity.
  - rewrite (IH _ K). destruct r as [r|]; cbn [absorb narratives]; [|reflexivity].
    rewrite kpis_fold in K. cbn [absorb kpis_list] in K.
    apply app_eq_nil in K as [K _]. apply app_eq_nil in K as [_ K].
    destruct Wr as (_ & _ & N). rewrite (N K). reflexivity.
Qed.

Lemma tiles_fold rs acc :
  Forall well_shaped rs ->
  Forall plain_tile (kpis_list acc) ->
  Forall plain_tile (kpis_list (fold_left absorb rs acc)).
Proof.
  intros W. revert acc. induction W as [|r rs Wr _ IH]; intros acc P; cbn [fold_left].
  - exact P.
  - apply IH. destruct r as [r|]; cbn [absorb kpis_list]; [|exact P].
    apply Forall_app. split; [exact P | apply Wr].
Qed.

(** ** The generic fallback *)

Lemma append_assoc (a b c : string) : (a ++ b) ++ c = a ++ b ++ c.
Proof. induction a as [|x a IH]; cbn [append]; [reflexivity | now rewrite IH]. Qed.

Lemma append_nil_r (a : string) : a ++ "" = a.
Proof. induction a as [|x a IH]; cbn [append]; [reflexivity | now rewrite IH]. Qed.

Lemma generic_stats_eq (Any : Type) (self : InsightsEngine Any) df :
  _generic_stats self df = (generic_tiles df, generic_narrative df).
Proof.
  unfold _generic_stats, generic_tiles, generic_narrative, tile.
  destruct (numeric_columns df) as [|c cs] eqn:E.
  - cbn [length Nat.ltb Nat.leb app]. rewrite ?append_assoc, ?append_nil_r. reflexivity.
  - cbn [length Nat.ltb Nat.leb app]. rewrite ?append_assoc. reflexivity.
Qed.

Lemma generic_tiles_plain df : Forall plain_tile (generic_tiles df).
Proof.
  unfold generic_tiles. apply Forall_app. split.
  - repeat constructor; discriminate.
  - destruct (numeric_columns df); repeat constructor; discriminate.
Qed.

(** ** The orchestrator *)

Lemma run_nonempty (Any : Type) lib (self : InsightsEngine Any) q sql df :
  empty df = false ->
  run lib self q sql df =
  (rs <- invoke_all (fun b => call lib self b df q sql) (_infer_blocks self q sql df) ;;
   Ok (finish self df (fold_left absorb rs acc0))).
Proof.
  intros E. unfold run, run_with. rewrite E, run_blocks_invoke_all.
  destruct (invoke_all _ _); reflexivity.
Qed.

Lemma call_ignores_text (Any : Type) lib (self1 self2 : InsightsEngine Any)
    b df q1 sql1 q2 sql2 :
  call lib self1 b df q1 sql1 = call lib self2 b df q2 sql2.
Proof. destruct b; reflexivity. Qed.

(** C1 (amended).  For every empty result set and any question and SQL text,
    [run] returns the artifact with no metrics, the narrative
    "*No data returned to analyze.*" (the sentence between the asterisks of
    markdown emphasis), no charts and the derivation "Empty result set"; no
    block is invoked: the artifact is the same whatever invoking a block
    would do. *)
Theorem run_empty_result_set :
  forall (Any : Type) (lib : Library)
         (self : InsightsEngine Any) (question sql : string) (df : DataFrame),
    empty df = true ->
    run lib self question sql df =
      Ok {| kpis := [];
            narrative := "*No data returned to analyze.*";
            charts := [];
            derivation := "Empty result set" |}
    /\ forall invoke, run_with invoke self question sql df = Ok empty_artifact.
Proof.
  intros Any lib self question sql df E. unfold run, run_with. rewrite E.
  split; [reflexivity | intros; reflexivity].
Qed.

Lemma run_empty_result_set_witness :
  empty Examples.df_empty = true
  /\ run Examples.lib Examples.engine
         "How many orders were late?" "SELECT COUNT(*) FROM orders WHERE is_late"
         Examples.df_empty
     = Ok empty_artifact.
Proof.
  split; [reflexivity|].
  apply (run_empty_result_set string Examples.lib Examples.engine
           "How many orders were late?" "SELECT COUNT(*) FROM orders WHERE is_late"
           Examples.df_empty).
  reflexivity.
Defined.

(** C1 as worded fails on the narrative: for an empty result set it is not
    the bare sentence "No data returned to analyze.". *)
Lemma run_empty_narrative_not_bare :
  empty Examples.df_empty = true
  /\ run Examples.lib Examples.engine
         "How many orders were late?" "SELECT COUNT(*) FROM orders WHERE is_late"
         Examples.df_empty
     = Ok {| kpis := [];
             narrative := "*No data returned to analyze.*";
             charts := [];
             derivation := "Empty result set" |}
  /\ run Examples.lib Examples.engine
         "How many orders were late?" "SELECT COUNT(*) FROM orders WHERE is_late"
         Examples.df_empty
     <> Ok {| kpis := [];
              narrative := "No data returned to analyze.";
              charts := [];
              derivation := "Empty result set" |}.
Proof.
  split; [reflexivity|]. split; [reflexivity|].
  intros H. vm_compute in H. discriminate H.
Qed.

(** C5.  The charts of a returned artifact are at most two, and they are the
    first two (or fewer) of the charts that the invoked blocks produced,
    in invocation order; for an empty result set no block is invoked. *)
Theorem run_charts_first_two :
  forall (Any : Type) (lib : Library)
         (self : InsightsEngine Any) (question sql : string) (df : DataFrame)
         (a : InsightArtifacts),
    run lib self question sql df = Ok a ->
    (length (charts a) <= 2)%nat
    /\ exists results,
         invoke_all (fun b => call lib self b df question sql)
                    (if empty df then [] else _infer_blocks self question sql df)
           = Ok results
         /\ charts a = firstn 2 (produced_charts results).
Proof.
  intros Any lib self question sql df a H.
  destruct (empty df) eqn:E.
  - unfold run, run_with in H. rewrite E in H. injection H as <-.
    split; [cbn; lia|]. exists []. split; reflexivity.
  - rewrite (run_nonempty _ _ _ _ _ _ E) in H.
    destruct (invoke_all _ _) as [rs|e]; cbn [Py.bind] in H; [|discriminate].
    injection H as <-. unfold finish.
    destruct (match kpis_list _ with [] => _ | _ => _ end) as [ks ns].
    cbn [charts]. rewrite charts_fold. cbn [acc0 charts_acc app].
    split; [apply firstn_le_length|]. exists rs. split; reflexivity.
Qed.

Lemma run_charts_first_two_witness :
  exists a,
    run Examples.lib Examples.engine
        "late delivery, payment value and review score by state" ""
        Examples.df_three_charts = Ok a
    /\ (length (charts a) <= 2)%nat.
Proof.
  eexists. split; [vm_compute; reflexivity|].
  eapply (run_charts_first_two string Examples.lib Examples.engine
            "late delivery, payment value and review score by state" ""
            Examples.df_three_charts).
  vm_compute; reflexivity.
Defined.

(** C9.  The artifact does not depend on the schema given to the engine, and
    the question and the SQL text reach it through the selection of blocks
    only: two engines give the same outcome on the same inputs, and for one
    result set two pairs of question and SQL that select the same blocks give
    the same outcome. *)
Theorem run_independent_of_schema_and_text :
  forall (Any : Type) (lib : Library) (df : DataFrame),
    (forall (self1 self2 : InsightsEngine Any) (question sql : string),
        run lib self1 question sql df = run lib self2 question sql df)
    /\ (forall (self : InsightsEngine Any) (q1 sql1 q2 sql2 : string),
           _infer_blocks self q1 sql1 df = _infer_blocks self q2 sql2 df ->
           run lib self q1 sql1 df = run lib self q2 sql2 df).
Proof.
  intros Any lib df. split.
  - intros self1 self2 question sql. unfold run, run_with.
    destruct (empty df); [reflexivity|].
    change (_infer_blocks self2 question sql df)
      with (_infer_blocks self1 question sql df).
    rewrite (run_blocks_ext _ (fun b => call lib self2 b df question sql));
      [|intros b; apply call_ignores_text].
    destruct (run_blocks _ _ _); reflexivity.
  - intros self q1 sql1 q2 sql2 E. unfold run, run_with.
    destruct (empty df); [reflexivity|].
    rewrite E.
    rewrite (run_blocks_ext _ (fun b => call lib self b df q2 sql2));
      [|intros b; apply call_ignores_text].
    reflexivity.
Qed.

Lemma run_independent_of_schema_and_text_witness :
  _infer_blocks Examples.engine "What is the delivery delay rate?" ""
                Examples.df_late_1_of_10
    = _infer_blocks Examples.engine "late shipments" "SELECT is_late FROM orders"
                    Examples.df_late_1_of_10
  /\ run Examples.lib Examples.engine
         "What is the delivery delay rate?" "" Examples.df_late_1_of_10
     = run Examples.lib Examples.engine
           "late shipments" "SELECT is_late FROM orders" Examples.df_late_1_of_10.
Proof.
  split; [vm_compute; reflexivity|].
  apply (proj2 (run_independent_of_schema_and_text string Examples.lib
                  Examples.df_late_1_of_10)).
  vm_compute; reflexivity.
Defined.

(** C10.  Every tile has an empty change text and a glyph: the tiles of every
    artifact [run] returns, the tiles of every block result, and the tiles of
    the generic fallback. *)
Theorem tiles_have_no_change :
  forall (Any : Type) (lib : Library)
         (self : InsightsEngine Any) (question sql : string) (df : DataFrame),
    (forall a, run lib self question sql df = Ok a ->
               Forall (fun k => change k = "" /\ icon k <> "") (kpis a))
    /\ (forall b r, call lib self b df question sql = Ok (Some r) ->
                    Forall (fun k => change k = "" /\ icon k <> "") (res_kpis r))
    /\ Forall (fun k => change k = "" /\ icon k <> "") (fst (_generic_stats self df)).
Proof.
  intros Any lib self question sql df. split; [|split].
  - intros a H. destruct (empty df) eqn:E.
    + unfold run, run_with in H. rewrite E in H. injection H as <-. constructor.
    + rewrite (run_nonempty _ _ _ _ _ _ E) in H.
      destruct (invoke_all _ _) as [rs|e] eqn:I; cbn [Py.bind] in H; [|discriminate].
      injection H as <-.
      assert (W : Forall well_shaped rs).
      { eapply invoke_all_Forall; [|exact I].
        intros b r. apply call_well_shaped. }
      pose proof (tiles_fold rs acc0 W (Forall_nil _)) as T.
      unfold finish. rewrite generic_stats_eq. cbn [fst snd].
      destruct (kpis_list (fold_left absorb rs acc0)) eqn:K; cbn [kpis].
      * apply generic_tiles_plain.
      * exact T.
  - intros b r H. apply call_well_shaped in H. apply H.
  - rewrite generic_stats_eq. apply generic_tiles_plain.
Qed.

Lemma tiles_have_no_change_witness :
  exists a,
    run Examples.lib Examples.engine
        "late delivery, payment value and review score by state" ""
        Examples.df_three_charts = Ok a
    /\ Forall (fun k => change k = "" /\ icon k <> "") (kpis a).
Proof.
  eexists. split; [vm_compute; reflexivity|].
  apply (proj1 (tiles_have_no_change string Examples.lib Examples.engine
                  "late delivery, payment value and review score by state" ""
                  Examples.df_three_charts)).
  vm_compute; reflexivity.
Defined.

(** C4 (amended).  For every non-empty result set, if the metrics accumulated
    from the selected blocks are empty, [run] returns the generic metrics
    (exactly "Rows Returned" = row count and "Columns" = column count, plus
    "Numeric Fields" iff there is a numeric column) and the generic
    narrative; the derivation is "Generic analysis" when no selected block
    returned a result, in particular when no block was selected, and is
    otherwise the labels of the blocks that returned one, joined. *)
Theorem run_generic_fallback :
  forall (Any : Type) (lib : Library)
         (self : InsightsEngine Any) (question sql : string) (df : DataFrame)
         (acc : Acc),
    empty df = false ->
    run_blocks (fun b => call lib self b df question sql)
               (_infer_blocks self question sql df) acc0 = Ok acc ->
    kpis_list acc = [] ->
    exists a results,
      run lib self question sql df = Ok a
      /\ invoke_all (fun b => call lib self b df question sql)
                    (_infer_blocks self question sql df) = Ok results
      /\ kpis a =
           ([ tile "Rows Returned" (format_int_comma (Z.of_nat (len df))) "📋";
              tile "Columns" (digits (N.of_nat (length (columns df)))) "📊" ]
            ++ match numeric_columns df with
               | [] => []
               | _ => [ tile "Numeric Fields"
                             (digits (N.of_nat (length (numeric_columns df)))) "🔢" ]
               end)%list
      /\ narrative a = generic_narrative df
      /\ derivation a = match labels results with
                        | [] => "Generic analysis"
                        | ls => join " → " ls
                        end
      /\ (_infer_blocks self question sql df = [] ->
          derivation a = "Generic analysis" /\ charts a = []).
Proof.
  intros Any lib self question sql df acc E R K.
  rewrite run_blocks_invoke_all in R.
  destruct (invoke_all _ _) as [rs|e] eqn:I; cbn [Py.bind] in R; [|discriminate].
  injection R as <-.
  assert (W : Forall well_shaped rs).
  { eapply invoke_all_Forall; [|exact I]. intros b r. apply call_well_shaped. }
  exists (finish self df (fold_left absorb rs acc0)), rs.
  split; [rewrite (run_nonempty _ _ _ _ _ _ E), I; reflexivity|].
  split; [reflexivity|].
  unfold finish. rewrite K, generic_stats_eq. cbn [fst snd kpis narrative derivation charts].
  rewrite (narratives_fold rs acc0 W K), (derivations_fold rs acc0 W).
  cbn [acc0 narratives derivations app].
  split; [reflexivity|]. split.
  { unfold join. cbn [String.concat]. reflexivity. }
  split; [destruct (labels rs); reflexivity|].
  intros B. rewrite B in I. cbn [invoke_all] in I. injection I as <-.
  split; reflexivity.
Qed.

Lemma run_generic_fallback_witness :
  exists a,
    run Examples.lib Examples.engine "delivery time" ""
        Examples.df_delivery_days = Ok a
    /\ kpis a = [ tile "Rows Returned" "2" "📋"; tile "Columns" "1" "📊";
                  tile "Numeric Fields" "1" "🔢" ]
    /\ derivation a = "Delivery analysis".
Proof.
  destruct (run_generic_fallback string Examples.lib Examples.engine
              "delivery time" "" Examples.df_delivery_days
              {| kpis_list := []; narratives := []; charts_acc := [];
                 derivations := ["Delivery analysis"] |})
    as (a & results & Ha & Hr & Hk & _ & Hd & _).
  - reflexivity.
  - vm_compute; reflexivity.
  - reflexivity.
  - exists a. split; [exact Ha|]. split; [exact Hk|].
    rewrite Hd. vm_compute in Hr. injection Hr as <-. reflexivity.
Defined.

(** C4 as worded fails on the derivation: a result set with a delivery column
    and no late indicator leaves the accumulated metrics empty, the fallback
    runs, and the derivation is the block's label, not "Generic analysis". *)
Lemma run_fallback_derivation_not_generic :
  empty Examples.df_delivery_days = false
  /\ run_blocks (fun b => call Examples.lib Examples.engine b
                               Examples.df_delivery_days "delivery time" "")
                (_infer_blocks Examples.engine "delivery time" ""
                               Examples.df_delivery_days) acc0
     = Ok {| kpis_list := []; narratives := []; charts_acc := [];
             derivations := ["Delivery analysis"] |}
  /\ run Examples.lib Examples.engine "delivery time" ""
         Examples.df_delivery_days
     = Ok {| kpis := [ tile "Rows Returned" "2" "📋"; tile "Columns" "1" "📊";
                       tile "Numeric Fields" "1" "🔢" ];
             narrative := generic_narrative Examples.df_delivery_days;
             charts := [];
             derivation := "Delivery analysis" |}
  /\ "Delivery analysis" <> "Generic analysis".
Proof.
  split; [reflexivity|]. split; [vm_compute; reflexivity|].
  split; [vm_compute; reflexivity | discriminate].
Qed.

(** ** Columns and reductions *)

Lemma getitem_columns df c :
  In c (columns df) -> exists s, getitem df c = Ok s.
Proof.
  unfold columns, getitem. induction (data df) as [|[n s] l IH]; cbn [map In find fst].
  - intros [].
  - intros [->|H].
    + rewrite String.eqb_refl. now exists s.
    + destruct (String.eqb n c); [now exists s | exact (IH H)].
Qed.

Lemma find_getitem df p c :
  find p (columns df) = Some c -> exists s, getitem df c = Ok s.
Proof. intros H. apply find_some in H as [H _]. now apply getitem_columns. Qed.

Lemma find_marker_truthy (p : string -> bool) cols c :
  p "" = false -> find p cols = Some c -> truthy (Some c) = true.
Proof.
  intros P H. apply find_some in H as [_ H].
  cbn [truthy]. destruct (String.eqb_spec c "") as [->|]; [congruence | reflexivity].
Qed.

Lemma as_floats_ok col ts :
  dtype_in (dtype col) ts = true -> exists xs, as_floats col = Ok xs.
Proof.
  destruct col; cbn [as_floats]; eauto.
  unfold dtype_in. cbn [dtype]. intros H. apply existsb_exists in H as (t & _ & H).
  destruct t; discriminate.
Qed.

Lemma mean_ok fsum col ts :
  dtype_in (dtype col) ts = true -> exists m, mean fsum col = Ok m.
Proof.
  destruct col; cbn [mean]; eauto.
  unfold dtype_in. cbn [dtype]. intros H. apply existsb_exists in H as (t & _ & H).
  destruct t; discriminate.
Qed.


Lemma sum_ok fsum col ts :
  dtype_in (dtype col) ts = true -> exists t, Pandas.sum fsum col = Ok t.
Proof.
  destruct col; cbn [Pandas.sum]; eauto.
  unfold dtype_in. cbn [dtype]. intros H. apply existsb_exists in H as (t & _ & H).
  destruct t; discriminate.
Qed.

Lemma int_of_sum_ok fsum col t :
  Pandas.sum fsum col = Ok t -> finite_sum fsum col = true -> exists n, int_of t = Ok n.
Proof.
  destruct col; cbn [Pandas.sum finite_sum]; intros H F; try discriminate;
    injection H as <-; cbn [int_of]; eauto.
  destruct (fsum (Float64 xs)); try discriminate; cbn [to_int]; eauto.
Qed.

Lemma groupby_mean_ok by_ col ts :
  dtype_in (dtype col) ts = true ->
  groupby_mean_top10 by_ col = Ok (GroupedTop10 agg_mean by_ col).
Proof.
  intros H. destruct (as_floats_ok _ _ H) as [xs E]. unfold groupby_mean_top10.
  rewrite E. reflexivity.
Qed.

(** ** The characters of a formatted number *)

Lemma chars_app (a b : string) : chars (a ++ b) = (chars a ++ chars b)%list.
Proof.
  unfold chars. induction a as [|c a IH]; cbn [append list_ascii_of_string app];
    [reflexivity | now rewrite IH].
Qed.

Lemma chars_of_list (l : list ascii) : chars (string_of_list_ascii l) = l.
Proof. apply list_ascii_of_string_of_list_ascii. Qed.

Lemma str_in_first (c : ascii) (k s : string) :
  str_in (String c k) s = true -> In c (chars s).
Proof.
  intros H. apply str_in_occurs in H as (pre & post & ->).
  rewrite chars_app. apply in_or_app. right. left. reflexivity.
Qed.

Lemma uint_chars (d : Decimal.uint) :
  incl (chars (NilEmpty.string_of_uint d)) (chars "0123456789").
Proof.
  induction d; cbn [NilEmpty.string_of_uint chars list_ascii_of_string];
    intros c Hc; [destruct Hc | ..];
    (destruct Hc as [<-|Hc]; [cbn; tauto | exact (IHd c Hc)]).
Qed.

Lemma digits_chars (n : N) : incl (chars (digits n)) (chars "0123456789").
Proof.
  unfold digits, NilZero.string_of_uint.
  destruct (N.to_uint n) eqn:E; try (rewrite <- E; apply uint_chars).
  intros c [<-|[]]. cbn; tauto.
Qed.

Lemma group3_rev_chars (cs : list ascii) (k : nat) :
  incl (group3_rev cs k) (","%char :: cs).
Proof.
  revert k. induction cs as [|c cs IH]; intros k; cbn [group3_rev].
  - intros x [].
  - assert (S : incl (","%char :: cs) (","%char :: c :: cs))
      by (intros x [<-|H]; [left; reflexivity | right; right; exact H]).
    destruct k as [|[|[|[|k]]]];
      intros x Hx; cbn [In] in Hx;
      repeat (destruct Hx as [<-|Hx]; [cbn; tauto|]);
      apply S; eapply IH; exact Hx.
Qed.

Lemma group3_chars (ds : string) : incl (chars (group3 ds)) (","%char :: chars ds).
Proof.
  unfold group3. rewrite chars_of_list. intros c Hc.
  apply in_rev in Hc. apply group3_rev_chars in Hc.
  destruct Hc as [<-|Hc]; [left; reflexivity | right; now apply in_rev in Hc].
Qed.

Lemma zeros_chars (k : nat) : incl (chars (zeros k)) (chars "0123456789").
Proof.
  induction k as [|k IH]; cbn [zeros chars list_ascii_of_string]; intros c Hc.
  - destruct Hc.
  - destruct Hc as [<-|Hc]; [cbn; tauto | exact (IH c Hc)].
Qed.

Lemma digits_number_chars : incl (chars "0123456789") (chars number_chars).
Proof. intros c Hc. cbn in *. tauto. Qed.

Lemma digits_in_number_chars (n : N) : incl (chars (digits n)) (chars number_chars).
Proof. intros c Hc. apply digits_number_chars. now apply digits_chars in Hc. Qed.

Lemma fixed_chars (comma : bool) (d : nat) (n : N) :
  incl (chars (fixed comma d n)) (chars number_chars).
Proof.
  unfold fixed. rewrite chars_app. apply incl_app.
  - destruct comma.
    + intros c Hc. apply group3_chars in Hc as [<-|Hc]; [cbn; tauto|].
      now apply digits_in_number_chars in Hc.
    + apply digits_in_number_chars.
  - destruct d as [|d]; [intros c []|].
    rewrite chars_app. apply incl_app; [intros c [<-|[]]; cbn; tauto|].
    unfold pad_digits. rewrite chars_app. apply incl_app;
      [|apply digits_in_number_chars].
    intros c Hc. apply digits_number_chars. now apply zeros_chars in Hc.
Qed.

Lemma format_f_chars (comma : bool) (d : nat) (x : float) :
  incl (chars (format_f comma d x)) (chars number_chars).
Proof.
  assert (S : forall (s : bool) t, incl (chars t) (chars number_chars) ->
                incl (chars ((if s then "-" else "") ++ t)) (chars number_chars)).
  { intros s t H. rewrite chars_app. apply incl_app; [|exact H].
    destruct s; intros c Hc; [destruct Hc as [<-|[]]; cbn; tauto | destruct Hc]. }
  destruct x as [s|s| |s m e]; cbn [format_f].
  - apply S, fixed_chars.
  - apply S. intros c Hc. cbn in *. tauto.
  - intros c Hc. cbn in *. tauto.
  - apply S, fixed_chars.
Qed.

(** A needle does not occur where its first character is absent. *)
Lemma str_in_absent (c : ascii) (k s : string) :
  ~ In c (chars s) -> str_in (String c k) s = false.
Proof.
  intros H. destruct (str_in (String c k) s) eqn:E; [|reflexivity].
  elim H. now apply str_in_first in E.
Qed.

(** ** The delivery block *)

Lemma selected_by_question (question sql : string) (cols : list string) (k : Block) :
  existsb (fun kw => str_in kw (lower question)) (keywords k) = true ->
  existsb (fun c => existsb (fun m => str_in m (lower c)) (markers k)) cols = true ->
  selected question sql cols k = true.
Proof.
  intros Hq Hc. unfold selected. rewrite Hc, andb_true_r.
  apply existsb_exists in Hq as (kw & Hin & Hq).
  apply existsb_exists. exists kw. split; [exact Hin|]. now rewrite Hq.
Qed.

Lemma selected_no_marker (question sql : string) (cols : list string) (k : Block) :
  existsb (fun c => existsb (fun m => str_in m (lower c)) (markers k)) cols = false ->
  selected question sql cols k = false.
Proof. intros Hc. unfold selected. rewrite Hc. apply andb_false_r. Qed.

Lemma draw_ok lib fig c : draw lib fig = Ok c -> c = fig.
Proof.
  unfold draw. destruct (draw_error lib fig); [discriminate|].
  intros H. now injection H as <-.
Qed.

Lemma bar_chart_ok lib data title label c :
  _create_bar_chart lib data title label = Ok c ->
  c = {| fig_kind := barh; fig_data := data; fig_title := title;
         fig_xlabel := label; fig_ylabel := "" |}.
Proof. apply draw_ok. Qed.


Lemma delivery_metrics (Any : Type) lib (self : InsightsEngine Any) df question sql lc col :
  find (fun c => str_in "late" (lower c)) (columns df) = Some lc ->
  getitem df lc = Ok col ->
  dtype_in (dtype col) [py_int; py_float; py_bool] = true ->
  finite_sum (float_sum lib) col = true ->
  exists m total n,
    mean (float_sum lib) col = Ok m /\ Pandas.sum (float_sum lib) col = Ok total
    /\ int_of total = Ok n
    /\ match _delivery_block lib self df question sql with
       | Ok (Some r) =>
           res_kpis r =
             [ tile "Late Delivery Rate" (format_f false 1 (mul m f100) ++ "%") "🚚";
               tile "Late Deliveries" (format_int_comma n) "⚠️" ]
           /\ res_narrative r =
                "- " ++ (if gtb (mul m f100) f10
                         then "**High late delivery rate** at "
                              ++ format_f false 1 (mul m f100)
                              ++ "% - consider logistics optimization"
                         else "Delivery performance is **good** with "
                              ++ format_f false 1 (mul m f100) ++ "% late rate")
       | Ok None => False
       | Raise e =>
           exists sc by_,
             find (fun c => str_in "state" (lower c)) (columns df) = Some sc
             /\ getitem df sc = Ok by_
             /\ (1 < len df)%nat
             /\ _create_bar_chart lib (GroupedTop10 agg_mean by_ col)
                                  "Late Delivery Rate by State" "Late Rate"
                = Raise e
       end.
Proof.
  intros Hf Hg Hd Hs.
  destruct (mean_ok (float_sum lib) _ _ Hd) as [m Hm].
  destruct (sum_ok (float_sum lib) _ _ Hd) as [total Ht].
  destruct (int_of_sum_ok _ _ _ Ht Hs) as [n Hn].
  assert (Htr : truthy (Some lc) = true)
    by (eapply find_marker_truthy; [|exact Hf]; reflexivity).
  exists m, total, n. repeat split; trivial.
  destruct (_delivery_block lib self df question sql) as [[r|]|e] eqn:H.
  all: unfold _delivery_block in H; cbv beta zeta in H.
  all: rewrite Hf, Htr in H; cbn [negb andb] in H.
  all: unfold Py.bind in H.
  all: rewrite Hg, Hd, Hm, Ht, Hn in H.
  all: run_py H.
  all: try match goal with
       | F : find _ (columns ?d) = Some ?sc, G : getitem ?d ?sc = Raise _ |- _ =>
           destruct (find_getitem _ _ _ F) as [? G']; congruence
       | G : groupby_mean_top10 ?a ?c = Raise _ |- _ =>
           rewrite (groupby_mean_ok a c _ Hd) in G; discriminate
       end.
  all: try (injection H as <-; split; reflexivity).
  injection H as <-.
  match goal with
  | G : groupby_mean_top10 ?a ?c = Ok ?p, L : _ && _ && (1 <? len _)%nat = true,
    C : _create_bar_chart _ ?p _ _ = Raise _ |- _ =>
      rewrite (groupby_mean_ok a c _ Hd) in G; injection G as <-;
      apply andb_true_iff in L as [_ L]; apply Nat.ltb_lt in L;
      do 2 eexists; split; [reflexivity|]; split; [eassumption|];
      split; [exact L | exact C]
  end.
Qed.

Lemma not_in_chars (c : ascii) (s : string) :
  existsb (Ascii.eqb c) (chars s) = false -> ~ In c (chars s).
Proof.
  intros E H. assert (X : existsb (Ascii.eqb c) (chars s) = true).
  { apply existsb_exists. exists c. split; [exact H | apply Ascii.eqb_refl]. }
  congruence.
Qed.

Lemma not_number_char (c : ascii) (comma : bool) (d : nat) (x : float) :
  existsb (Ascii.eqb c) (chars number_chars) = false ->
  ~ In c (chars (format_f comma d x)).
Proof.
  intros E H. apply format_f_chars in H. now apply not_in_chars in E.
Qed.

Lemma delivery_narrative_flags (rate : float) :
  let line := "- " ++ (if gtb rate f10
                       then "**High late delivery rate** at "
                            ++ format_f false 1 rate
                            ++ "% - consider logistics optimization"
                       else "Delivery performance is **good** with "
                            ++ format_f false 1 rate ++ "% late rate") in
  (str_in "High late delivery rate" line = true <-> gtb rate f10 = true)
  /\ (gtb rate f10 = false -> str_in "good" line = true).
Proof.
  cbv zeta. destruct (gtb rate f10).
  - split; [|discriminate]. split; [reflexivity|]. intros _.
    apply str_in_occurs.
    exists "- **", ("** at " ++ format_f false 1 rate
                    ++ "% - consider logistics optimization").
    reflexivity.
  - split.
    + split; [|discriminate]. intros H. exfalso. revert H.
      rewrite str_in_absent; [discriminate|].
      change ("- " ++ "Delivery performance is **good** with "
              ++ format_f false 1 rate ++ "% late rate")
        with ("- Delivery performance is **good** with "
              ++ format_f false 1 rate ++ "% late rate").
      rewrite !chars_app. intros H.
      apply in_app_or in H as [H|H]; [revert H; now apply not_in_chars|].
      apply in_app_or in H as [H|H]; [revert H; now apply not_number_char|].
      revert H; now apply not_in_chars.
    + intros _. apply str_in_occurs.
      exists "- Delivery performance is **",
             ("** with " ++ format_f false 1 rate ++ "% late rate").
      reflexivity.
Qed.

(** C6 (amended).  For every result set whose late-indicator column (the
    first column with "late" in its lower-cased name) is numeric or boolean
    and whose column sum converts to an integer (always for booleans and
    integers, for floats when the sum is finite), a result of the delivery
    block has the late rate mean(column) x 100 with one decimal and the
    late count int(sum(column)); its narrative contains "High late delivery
    rate" exactly when the rate is greater than 10 and contains "good"
    otherwise.  The block does not decline; it raises only when drawing the
    chart by state raises, and returns a result whenever there is no state
    column or no more than one row.  For "is_late" with 1 true in 10 rows
    and the question "What is the delivery delay rate?" the rate is 10.0%,
    the count 1 and the narrative contains "good"; with 2 true in 10 it
    contains "High late delivery rate". *)
Theorem delivery_block_late_rate :
  forall (Any : Type) (lib : Library) (self : InsightsEngine Any),
    (forall (df : DataFrame) (question sql lc : string) (col : Series),
        find (fun c => str_in "late" (lower c)) (columns df) = Some lc ->
        getitem df lc = Ok col ->
        dtype_in (dtype col) [py_int; py_float; py_bool] = true ->
        finite_sum (float_sum lib) col = true ->
        exists m total n,
          mean (float_sum lib) col = Ok m
          /\ Pandas.sum (float_sum lib) col = Ok total
          /\ int_of total = Ok n
          /\ (forall r,
                _delivery_block lib self df question sql = Ok (Some r) ->
                res_kpis r =
                  [ tile "Late Delivery Rate"
                         (format_f false 1 (mul m f100) ++ "%") "🚚";
                    tile "Late Deliveries" (format_int_comma n) "⚠️" ]
                /\ (str_in "High late delivery rate" (res_narrative r) = true
                    <-> gtb (mul m f100) f10 = true)
                /\ (gtb (mul m f100) f10 = false ->
                    str_in "good" (res_narrative r) = true))
          /\ _delivery_block lib self df question sql <> Ok None
          /\ (forall e,
                _delivery_block lib self df question sql = Raise e ->
                exists sc by_,
                  find (fun c => str_in "state" (lower c)) (columns df) = Some sc
                  /\ getitem df sc = Ok by_
                  /\ (1 < len df)%nat
                  /\ _create_bar_chart lib (GroupedTop10 agg_mean by_ col)
                                       "Late Delivery Rate by State" "Late Rate"
                     = Raise e)
          /\ (find (fun c => str_in "state" (lower c)) (columns df) = None
              \/ (len df <= 1)%nat ->
              exists r, _delivery_block lib self df question sql = Ok (Some r)))
    /\ (forall sql : string,
          exists a,
            run lib self "What is the delivery delay rate?" sql
                Examples.df_late_1_of_10 = Ok a
            /\ kpis a = [ tile "Late Delivery Rate" "10.0%" "🚚";
                          tile "Late Deliveries" "1" "⚠️" ]
            /\ str_in "good" (narrative a) = true
            /\ str_in "High late delivery rate" (narrative a) = false)
    /\ (forall sql : string,
          exists a,
            run lib self "What is the delivery delay rate?" sql
                Examples.df_late_2_of_10 = Ok a
            /\ kpis a = [ tile "Late Delivery Rate" "20.0%" "🚚";
                          tile "Late Deliveries" "2" "⚠️" ]
            /\ str_in "High late delivery rate" (narrative a) = true).
Proof.
  intros Any lib self. split; [|split].
  - intros df question sql lc col Hf Hg Hd Hs.
    destruct (delivery_metrics Any lib self df question sql lc col Hf Hg Hd Hs)
      as (m & total & n & Hm & Ht & Hn & HM).
    exists m, total, n. do 3 (split; [assumption|]).
    destruct (_delivery_block lib self df question sql) as [[r|]|e]; [| destruct HM |].
    + destruct HM as [Hk Hnar]. split; [|split; [discriminate|split]].
      * intros r' E. injection E as <-. split; [exact Hk|].
        rewrite Hnar. apply (delivery_narrative_flags (mul m f100)).
      * intros e E. discriminate E.
      * intros _. now exists r.
    + destruct HM as (sc & by_ & Hsc & Hby & Hl & Hc).
      split; [intros r E; discriminate E|]. split; [discriminate|]. split.
      * intros e' E. injection E as <-. exists sc, by_. auto.
      * intros [N|L]; [congruence | lia].
  - intros sql.
    assert (B : _infer_blocks self "What is the delivery delay rate?" sql
                              Examples.df_late_1_of_10 = [delivery_block]).
    { rewrite infer_blocks_eq_select. unfold select, priority. cbn [filter].
      rewrite selected_by_question by (vm_compute; reflexivity).
      rewrite !selected_no_marker by (vm_compute; reflexivity). reflexivity. }
    rewrite (run_nonempty _ _ _ _ _ _ (eq_refl : empty Examples.df_late_1_of_10 = false)).
    rewrite B. cbn [invoke_all call].
    eexists. split; [vm_compute; reflexivity|].
    repeat split; vm_compute; reflexivity.
  - intros sql.
    assert (B : _infer_blocks self "What is the delivery delay rate?" sql
                              Examples.df_late_2_of_10 = [delivery_block]).
    { rewrite infer_blocks_eq_select. unfold select, priority. cbn [filter].
      rewrite selected_by_question by (vm_compute; reflexivity).
      rewrite !selected_no_marker by (vm_compute; reflexivity). reflexivity. }
    rewrite (run_nonempty _ _ _ _ _ _ (eq_refl : empty Examples.df_late_2_of_10 = false)).
    rewrite B. cbn [invoke_all call].
    eexists. split; [vm_compute; reflexivity|].
    repeat split; vm_compute; reflexivity.
Qed.

Lemma delivery_block_late_rate_witness :
  exists r,
    _delivery_block Examples.lib Examples.engine Examples.df_late_shares
                    "What is the delivery delay rate?" "" = Ok (Some r)
    /\ res_kpis r = [ tile "Late Delivery Rate" "10.0%" "🚚";
                      tile "Late Deliveries" "0" "⚠️" ]
    /\ str_in "good" (res_narrative r) = true.
Proof.
  destruct (proj1 (delivery_block_late_rate string Examples.lib Examples.engine)
              Examples.df_late_shares "What is the delivery delay rate?" ""
              "late_share"
              (Float64 [div (of_Z 13) (of_Z 100); div (of_Z 7) (of_Z 100);
                        div (of_Z 2) (of_Z 10); div (of_Z 8) (of_Z 100);
                        div (of_Z 8) (of_Z 100); div (of_Z 7) (of_Z 100);
                        div (of_Z 5) (of_Z 100); div (of_Z 12) (of_Z 100)]))
    as (m & total & n & Hm & Ht & Hn & Hok & _ & _ & Hret).
  - reflexivity.
  - reflexivity.
  - reflexivity.
  - vm_compute. reflexivity.
  - destruct Hret as [r Hr]; [left; reflexivity|].
    exists r. split; [exact Hr|].
    destruct (Hok r Hr) as (Hk & _ & Hgood).
    vm_compute in Hm. injection Hm as <-.
    vm_compute in Ht. injection Ht as <-.
    vm_compute in Hn. injection Hn as <-.
    split; [rewrite Hk; vm_compute; reflexivity|].
    apply Hgood. vm_compute. reflexivity.
Defined.

(** C6 as worded fails on the late count.  Two float cells of 1e308 sum to
    infinity, which does not convert to an integer: the delivery block
    raises instead of emitting the tiles.  And where the sum has a fraction
    the count shown is its integer part: cells 0.5 and 0.75 sum to 1.25 and
    the tile shows 1. *)
Lemma delivery_block_count_not_sum :
  (find (fun c => str_in "late" (lower c)) (columns Examples.df_late_overflow)
     = Some "is_late"
   /\ getitem Examples.df_late_overflow "is_late"
      = Ok (Float64 [of_Z (10 ^ 308); of_Z (10 ^ 308)])
   /\ dtype_in float64 [py_int; py_float; py_bool] = true
   /\ Pandas.sum (float_sum Examples.lib) (Float64 [of_Z (10 ^ 308); of_Z (10 ^ 308)])
      = Ok (NumFloat (S754_infinity false))
   /\ _delivery_block Examples.lib Examples.engine Examples.df_late_overflow
                      "How many deliveries were late?" ""
      = Raise OverflowError)
  /\ (Pandas.sum (float_sum Examples.lib)
                 (Float64 [div (of_Z 1) (of_Z 2); div (of_Z 3) (of_Z 4)])
      = Ok (NumFloat (div (of_Z 5) (of_Z 4)))
      /\ _delivery_block Examples.lib Examples.engine Examples.df_late_fraction
                         "How many deliveries were late?" ""
         = Ok (Some {| res_kpis := [ tile "Late Delivery Rate" "62.5%" "🚚";
                                     tile "Late Deliveries" "1" "⚠️" ];
                       res_narrative :=
                         "- **High late delivery rate** at 62.5% - consider logistics optimization";
                       res_chart := None;
                       res_derivation := "Delivery analysis" |})).
Proof.
  split.
  - split; [reflexivity|]. split; [reflexivity|]. split; [reflexivity|].
    split; vm_compute; reflexivity.
  - split; vm_compute; reflexivity.
Qed.

(** ** The payment block *)




(** ** The review block *)



Lemma find_all_false {A : Type} (p : A -> bool) (l : list A) :
  (forall x, In x l -> p x = false) -> find p l = None.
Proof.
  induction l as [|x l IH]; intros H; cbn [find]; [reflexivity|].
  rewrite (H x (or_introl eq_refl)). apply IH. intros y Hy. apply H. now right.
Qed.





(** ** Where an exception can come from *)











(** C2, the failing input.  The delivery block is selected, finds the late
    indicator by name, skips the metrics because the column is text, and
    then averages that column per state for the chart: the exception
    leaves [run]. *)
Theorem run_text_late_column_raises :
  forall (Any : Type) (lib : Library)
         (self : InsightsEngine Any),
    wf Examples.df_text_late
    /\ _infer_blocks self "late deliveries by state" "" Examples.df_text_late
       = [delivery_block]
    /\ run lib self "late deliveries by state" "" Examples.df_text_late
       = Raise TypeError.
Proof.
  intros Any lib self. split; [|split].
  - split.
    + cbn. repeat constructor; cbn; intuition discriminate.
    + repeat constructor.
  - vm_compute; reflexivity.
  - vm_compute; reflexivity.
Qed.

(* ================================================================== *)
(** * Further facts about the engine *)

(** ** When [run] raises and when it returns *)


Lemma run_delivery_first (Any : Type) lib (self : InsightsEngine Any) q sql df e :
  empty df = false ->
  In delivery_block (_infer_blocks self q sql df) ->
  _delivery_block lib self df q sql = Raise e ->
  run lib self q sql df = Raise e.
Proof.
  intros E Hin Hr. rewrite (run_nonempty _ _ _ _ _ _ E).
  rewrite infer_blocks_eq_select in *. unfold select, priority in *.
  cbn [filter] in *.
  destruct (selected q sql (columns df) delivery_block).
  - cbn [invoke_all call]. rewrite Hr. reflexivity.
  - exfalso.
    destruct (selected q sql (columns df) payment_block),
             (selected q sql (columns df) review_block);
      cbn in Hin; intuition discriminate.
Qed.

(** The delivery block raises, and [run] with it, in each of the two
    situations: a numeric late indicator whose sum does not convert to an
    integer, and a late indicator holding text next to a state column in a
    result set of more than one row. *)
Theorem run_raises_on_late_column :
  forall (Any : Type) (lib : Library)
         (self : InsightsEngine Any) (question sql : string) (df : DataFrame)
         (lc : string) (col : Series),
    empty df = false ->
    In delivery_block (_infer_blocks self question sql df) ->
    find (fun c => str_in "late" (lower c)) (columns df) = Some lc ->
    getitem df lc = Ok col ->
    (dtype_in (dtype col) [py_int; py_float; py_bool] = true
     /\ finite_sum (float_sum lib) col = false)
    \/ (exists xs sc,
          col = Object xs /\ has_text xs = true
          /\ find (fun c => str_in "state" (lower c)) (columns df) = Some sc
          /\ (1 < len df)%nat) ->
    exists e, run lib self question sql df = Raise e
              /\ _delivery_block lib self df question sql = Raise e.
Proof.
  intros Any lib self question sql df lc col E Hin Hf Hg Hc.
  assert (Htr : truthy (Some lc) = true)
    by (eapply find_marker_truthy; [|exact Hf]; reflexivity).
  assert (R : exists e, _delivery_block lib self df question sql = Raise e).
  { unfold _delivery_block. cbv beta zeta. rewrite Hf, Htr. cbn [negb andb].
    unfold Py.bind. rewrite Hg.
    destruct Hc as [[Hd Hs]|(xs & sc & -> & Ht & Hsc & Hl)].
    - rewrite Hd. destruct (mean_ok (float_sum lib) _ _ Hd) as [m ->].
      destruct (sum_ok (float_sum lib) _ _ Hd) as [t Ht]. rewrite Ht.
      destruct col; cbn [Pandas.sum finite_sum] in *; try discriminate.
      injection Ht as <-. cbn [int_of].
      destruct (float_sum lib (Float64 xs)); try discriminate; cbn [to_int]; eauto.
    - cbn [dtype dtype_in existsb dtype_eq orb]. rewrite Hsc.
      assert (Hts : truthy (Some sc) = true)
        by (eapply find_marker_truthy; [|exact Hsc]; reflexivity).
      rewrite Hts. cbn [andb]. apply Nat.ltb_lt in Hl. rewrite Hl.
      destruct (find_getitem _ _ _ Hsc) as [by_ ->].
      unfold groupby_mean_top10. cbn [as_floats]. rewrite Ht. cbn [Py.bind]. eauto. }
  destruct R as [e R]. exists e. split; [|exact R].
  now apply run_delivery_first.
Qed.

Lemma run_raises_on_late_column_witness :
  exists e, run Examples.lib Examples.engine
                "How many deliveries were late?" "" Examples.df_late_overflow
            = Raise e.
Proof.
  destruct (run_raises_on_late_column string Examples.lib Examples.engine
              "How many deliveries were late?" "" Examples.df_late_overflow
              "is_late" (Float64 [of_Z (10 ^ 308); of_Z (10 ^ 308)]))
    as (e & He & _).
  - reflexivity.
  - vm_compute. left. reflexivity.
  - reflexivity.
  - reflexivity.
  - left. split; vm_compute; reflexivity.
  - exists e. exact He.
Defined.




(** ** What [run] merges *)

Import Merge.

Lemma existsb_all_false {A : Type} (f : A -> bool) (l : list A) :
  (forall x, In x l -> f x = false) -> existsb f l = false.
Proof.
  induction l as [|x l IH]; intros H; cbn [existsb]; [reflexivity|].
  rewrite (H x (or_introl eq_refl)), IH; [reflexivity|].
  intros y Hy. apply H. now right.
Qed.

Lemma invoke_all_length invoke blocks rs :
  invoke_all invoke blocks = Ok rs -> length rs = length blocks.
Proof.
  revert rs. induction blocks as [|b blocks IH]; intros rs H; cbn [invoke_all] in H.
  - injection H as <-. reflexivity.
  - destruct (invoke b); cbn [Py.bind] in H; [|discriminate].
    destruct (invoke_all invoke blocks) as [rs'|]; cbn [Py.bind] in H; [|discriminate].
    injection H as <-. cbn [length]. now rewrite (IH rs' eq_refl).
Qed.

Lemma infer_blocks_at_most_three (Any : Type) (self : InsightsEngine Any) q sql df :
  (length (_infer_blocks self q sql df) <= 3)%nat.
Proof.
  rewrite infer_blocks_eq_select. unfold select, priority. cbn [filter].
  destruct (selected q sql (columns df) delivery_block),
           (selected q sql (columns df) payment_block),
           (selected q sql (columns df) review_block); cbn [length]; lia.
Qed.

Lemma call_tile_count (Any : Type) lib (self : InsightsEngine Any) b df q s r :
  call lib self b df q s = Ok r ->
  match r with
  | Some x => length (res_kpis x) = 0%nat \/ length (res_kpis x) = 2%nat
  | None => True
  end.
Proof.
  destruct r as [r|]; [|easy]. destruct b; cbn [call]; intros H.
  - apply delivery_shape in H as [_ [[K _]|(v1 & v2 & line & K & _)]];
      rewrite K; cbn; auto.
  - apply payment_shape in H as [_ (v1 & v2 & K)]. rewrite K. cbn; auto.
  - apply review_shape in H as [_ (v1 & v2 & K)]. rewrite K. cbn; auto.
Qed.

Lemma tiles_of_bounds (rs : list (option BlockResult)) :
  Forall (fun r => match r with
                   | Some x => length (res_kpis x) = 0%nat \/ length (res_kpis x) = 2%nat
                   | None => True
                   end) rs ->
  (length (tiles_of rs) <= 2 * length rs)%nat
  /\ (tiles_of rs = [] \/ (2 <= length (tiles_of rs))%nat).
Proof.
  unfold tiles_of.
  induction 1 as [|r rs Hr _ [IH1 IH2]]; cbn [flat_map length].
  - split; [lia | now left].
  - rewrite length_app. destruct r as [x|]; cbn [length app].
    + destruct Hr as [Hr|Hr]; rewrite Hr.
      * apply length_zero_iff_nil in Hr. rewrite Hr. cbn [app].
        split; [lia | exact IH2].
      * split; [lia | right; lia].
    + split; [lia | exact IH2].
Qed.

Lemma narratives_merge rs acc :
  narratives (fold_left absorb rs acc) = (narratives acc ++ fragments_of rs)%list.
Proof.
  revert acc. induction rs as [|r rs IH]; intros acc; cbn [fold_left].
  - symmetry. apply app_nil_r.
  - rewrite IH. unfold fragments_of. cbn [flat_map].
    destruct r as [r|]; cbn [absorb narratives]; [|reflexivity].
    destruct (String.eqb (res_narrative r) ""); cbn [negb];
      [reflexivity | now rewrite <- app_assoc].
Qed.

Lemma generic_tiles_count df :
  length (generic_tiles df) = 2%nat \/ length (generic_tiles df) = 3%nat.
Proof.
  unfold generic_tiles. rewrite length_app.
  destruct (numeric_columns df); cbn [length]; auto.
Qed.

(** For a result set that is not empty, an artifact that [run] returns has
    at least two tiles and at most six. *)
Theorem run_tile_count :
  forall (Any : Type) (lib : Library)
         (self : InsightsEngine Any) (question sql : string) (df : DataFrame)
         (a : InsightArtifacts),
    empty df = false ->
    run lib self question sql df = Ok a ->
    (2 <= length (kpis a) <= 6)%nat.
Proof.
  intros Any lib self question sql df a E H.
  rewrite (run_nonempty _ _ _ _ _ _ E) in H.
  destruct (invoke_all _ _) as [rs|e] eqn:I; cbn [Py.bind] in H; [|discriminate].
  injection H as <-.
  assert (C : Forall (fun r => match r with
                               | Some x => length (res_kpis x) = 0%nat
                                           \/ length (res_kpis x) = 2%nat
                               | None => True
                               end) rs).
  { eapply invoke_all_Forall; [|exact I]. intros b r. apply call_tile_count. }
  apply tiles_of_bounds in C as [B1 B2].
  pose proof (invoke_all_length _ _ _ I) as L.
  pose proof (infer_blocks_at_most_three Any self question sql df) as L3.
  unfold finish. rewrite generic_stats_eq. cbn [fst snd].
  pose proof (kpis_fold rs acc0) as K. cbn [acc0 kpis_list app] in K.
  fold (tiles_of rs) in K.
  destruct (kpis_list (fold_left absorb rs acc0)) as [|k ks] eqn:KL; cbn [kpis].
  - destruct (generic_tiles_count df) as [G|G]; rewrite G; lia.
  - rewrite K. destruct B2 as [B2|B2]; [congruence | lia].
Qed.

Lemma run_tile_count_witness :
  exists a,
    run Examples.lib Examples.engine
        "late delivery, payment value and review score by state" ""
        Examples.df_three_charts = Ok a
    /\ (2 <= length (kpis a) <= 6)%nat.
Proof.
  eexists. split; [vm_compute; reflexivity|].
  apply (run_tile_count string Examples.lib Examples.engine
           "late delivery, payment value and review score by state" ""
           Examples.df_three_charts).
  - reflexivity.
  - vm_compute; reflexivity.
Defined.

Lemma tiles_labels rs :
  tiles_of rs <> [] -> labels rs <> [].
Proof.
  unfold tiles_of, labels. induction rs as [|r rs IH]; cbn [flat_map]; [easy|].
  destruct r as [x|]; [discriminate | exact IH].
Qed.

(** When the selected blocks return and bring at least one tile, the
    artifact is their merge in invocation order: the tiles concatenated,
    the non-empty narrative fragments joined by a blank line, the first two
    charts, and the labels joined by an arrow. *)
Theorem run_merges_in_order :
  forall (Any : Type) (lib : Library)
         (self : InsightsEngine Any) (question sql : string) (df : DataFrame)
         (results : list (option BlockResult)),
    empty df = false ->
    invoke_all (fun b => call lib self b df question sql)
               (_infer_blocks self question sql df) = Ok results ->
    tiles_of results <> [] ->
    run lib self question sql df =
      Ok {| kpis := tiles_of results;
            narrative := join (nl ++ nl) (fragments_of results);
            charts := firstn 2 (produced_charts results);
            derivation := join " → " (labels results) |}.
Proof.
  intros Any lib self question sql df rs E I T.
  rewrite (run_nonempty _ _ _ _ _ _ E), I. cbn [Py.bind].
  assert (W : Forall well_shaped rs).
  { eapply invoke_all_Forall; [|exact I]. intros b r. apply call_well_shaped. }
  unfold finish.
  pose proof (kpis_fold rs acc0) as K. cbn [acc0 kpis_list app] in K.
  fold (tiles_of rs) in K. rewrite K.
  rewrite narratives_merge, charts_fold, (derivations_fold rs acc0 W).
  cbn [acc0 narratives charts_acc derivations app].
  pose proof (tiles_labels rs T) as L.
  destruct (tiles_of rs) eqn:TT; [now elim T|].
  destruct (labels rs) eqn:LL; [now elim L|]. reflexivity.
Qed.

Lemma run_merges_in_order_witness :
  exists a,
    run Examples.lib Examples.engine
        "late delivery, payment value and review score by state" ""
        Examples.df_three_charts = Ok a
    /\ length (kpis a) = 6%nat
    /\ derivation a = "Delivery analysis → Payment analysis → Review analysis".
Proof.
  eexists. split.
  - eapply (run_merges_in_order string Examples.lib Examples.engine
              "late delivery, payment value and review score by state" ""
              Examples.df_three_charts).
    + reflexivity.
    + vm_compute; reflexivity.
    + vm_compute; discriminate.
  - split; vm_compute; reflexivity.
Defined.

Lemma selected_no_keyword (question sql : string) (cols : list string) (k : Block) :
  (forall kw, In kw (keywords k) ->
              str_in kw (lower question) = false /\ str_in kw (lower sql) = false) ->
  selected question sql cols k = false.
Proof.
  intros H. unfold selected. rewrite existsb_all_false; [reflexivity|].
  intros kw Hk. destruct (H kw Hk) as [-> ->]. reflexivity.
Qed.

Lemma keywords_all (k : Block) (kw : string) : In kw (keywords k) -> In kw all_keywords.
Proof. unfold all_keywords. rewrite !in_app_iff. destruct k; auto. Qed.

Lemma markers_all (k : Block) (m : string) : In m (markers k) -> In m all_markers.
Proof. unfold all_markers. rewrite !in_app_iff. destruct k; auto. Qed.

(** Without a keyword in the question and the SQL, or without a marker in
    the column names, no block is selected and the artifact of a result set
    that is not empty is the generic one: the generic tiles and narrative,
    no chart, derivation "Generic analysis". *)
Theorem run_generic_without_keyword_or_marker :
  forall (Any : Type) (lib : Library)
         (self : InsightsEngine Any) (question sql : string) (df : DataFrame),
    empty df = false ->
    (forall kw, In kw all_keywords ->
                str_in kw (lower question) = false /\ str_in kw (lower sql) = false)
    \/ (forall c m, In c (columns df) -> In m all_markers ->
                    str_in m (lower c) = false) ->
    _infer_blocks self question sql df = []
    /\ run lib self question sql df =
         Ok {| kpis := generic_tiles df;
               narrative := generic_narrative df;
               charts := [];
               derivation := "Generic analysis" |}.
Proof.
  intros Any lib self question sql df E H.
  assert (S : forall k, selected question sql (columns df) k = false).
  { intros k. destruct H as [H|H].
    - apply selected_no_keyword. intros kw Hk. apply H. eapply keywords_all, Hk.
    - apply selected_no_marker. apply existsb_all_false. intros c Hc.
      apply existsb_all_false. intros m Hm. apply H; [exact Hc|].
      eapply markers_all, Hm. }
  assert (B : _infer_blocks self question sql df = []).
  { rewrite infer_blocks_eq_select. unfold select, priority. cbn [filter].
    now rewrite !S. }
  split; [exact B|].
  rewrite (run_nonempty _ _ _ _ _ _ E), B. cbn [invoke_all Py.bind fold_left].
  unfold finish. rewrite generic_stats_eq. reflexivity.
Qed.

Lemma run_generic_without_keyword_or_marker_witness :
  run Examples.lib Examples.engine "How many rows are there?"
      "SELECT * FROM t" Examples.df_reviews
  = Ok {| kpis := generic_tiles Examples.df_reviews;
          narrative := generic_narrative Examples.df_reviews;
          charts := [];
          derivation := "Generic analysis" |}.
Proof.
  apply (run_generic_without_keyword_or_marker string Examples.lib
           Examples.engine "How many rows are there?" "SELECT * FROM t"
           Examples.df_reviews).
  - reflexivity.
  - left. intros kw Hk. cbn in Hk.
    repeat (destruct Hk as [<-|Hk]; [split; vm_compute; reflexivity|]).
    destruct Hk.
Defined.

(** ** What the blocks decline and what they draw *)

Lemma truthy_find_none (p : string -> bool) (cols : list string) :
  p "" = false -> truthy (find p cols) = false -> find p cols = None.
Proof.
  intros P T. destruct (find p cols) as [c|] eqn:F; [|reflexivity].
  rewrite (find_marker_truthy p cols c P F) in T. discriminate.
Qed.

(** The delivery block declines (returns nothing) exactly when no column
    name contains "late" and no column name contains "delivery" without
    "date". *)
Theorem delivery_block_declines_iff :
  forall (Any : Type) (lib : Library) (self : InsightsEngine Any) (df : DataFrame)
         (question sql : string),
    _delivery_block lib self df question sql = Ok None <->
    (forall c, In c (columns df) ->
               str_in "late" (lower c) = false
               /\ (str_in "delivery" (lower c) = false
                   \/ str_in "date" (lower c) = true)).
Proof.
  intros Any lib self df question sql. split.
  - intros H. unfold _delivery_block in H. run_py H.
    apply andb_true_iff in Heqb as [L D].
    apply negb_true_iff in L, D.
    apply truthy_find_none in L; [|reflexivity].
    apply truthy_find_none in D; [|reflexivity].
    intros c Hc. split; [exact (find_none _ _ L c Hc)|].
    pose proof (find_none _ _ D c Hc) as X. cbv beta in X.
    apply andb_false_iff in X as [X|X]; [now left|].
    right. now apply negb_false_iff in X.
  - intros H. unfold _delivery_block. cbv beta zeta.
    rewrite (find_all_false (fun c => str_in "late" (lower c)));
      [|intros c Hc; apply (H c Hc)].
    rewrite (find_all_false
               (fun c => str_in "delivery" (lower c) && negb (str_in "date" (lower c))));
      [reflexivity|].
    intros c Hc. destruct (H c Hc) as [_ [->| ->]];
      [reflexivity | apply andb_false_r].
Qed.

(** When the delivery block returns a result, its chart is the bar chart of
    the late indicator averaged by the first state column exactly when both
    columns exist and the result set has more than one row; it has no tiles
    exactly when there is no late indicator or the late indicator has the
    object dtype. *)
Theorem delivery_block_result :
  forall (Any : Type) (lib : Library) (self : InsightsEngine Any) (df : DataFrame)
         (question sql : string) (r : BlockResult),
    _delivery_block lib self df question sql = Ok (Some r) ->
    res_derivation r = "Delivery analysis"
    /\ (res_kpis r = [] <->
        find (fun c => str_in "late" (lower c)) (columns df) = None
        \/ exists lc xs,
             find (fun c => str_in "late" (lower c)) (columns df) = Some lc
             /\ getitem df lc = Ok (Object xs))
    /\ match res_chart r with
       | Some c =>
           exists sc lc by_ vals,
             find (fun c => str_in "state" (lower c)) (columns df) = Some sc
             /\ find (fun c => str_in "late" (lower c)) (columns df) = Some lc
             /\ (1 < len df)%nat
             /\ getitem df sc = Ok by_ /\ getitem df lc = Ok vals
             /\ c = {| fig_kind := barh;
                       fig_data := GroupedTop10 agg_mean by_ vals;
                       fig_title := "Late Delivery Rate by State";
                       fig_xlabel := "Late Rate";
                       fig_ylabel := "" |}
       | None =>
           find (fun c => str_in "state" (lower c)) (columns df) = None
           \/ find (fun c => str_in "late" (lower c)) (columns df) = None
           \/ (len df <= 1)%nat
       end.
Proof.
  intros Any lib self df question sql r H.
  unfold _delivery_block in H. run_py H.
  all: injection H as <-; cbn [res_derivation res_kpis res_chart].
  all: split; [reflexivity|].
  all: repeat match goal with
         | G : _create_bar_chart _ _ _ _ = Ok _ |- _ =>
             apply bar_chart_ok in G; subst
         | G : groupby_mean_top10 _ _ = Ok _ |- _ =>
             unfold groupby_mean_top10 in G;
             destruct (as_floats _) in G; cbn [Py.bind] in G;
             [injection G as <- | discriminate G]
         | G : _ && true && (1 <? _)%nat = true |- _ =>
             apply andb_true_iff in G as [_ G]; apply Nat.ltb_lt in G
         | G : truthy (Some ?s) && true && (1 <? _)%nat = false,
           F : find _ _ = Some ?s |- _ =>
             rewrite (find_marker_truthy _ _ _ eq_refl F) in G;
             cbn [andb] in G; apply Nat.ltb_ge in G
         end.
  all: try match goal with
         | F : find _ _ = Some ?s, T : truthy (Some ?s) = false |- _ =>
             rewrite (find_marker_truthy _ _ _ eq_refl F) in T; discriminate T
         end.
  all: split.
  all: try (do 4 eexists; repeat split; eassumption).
  all: try (left; reflexivity).
  all: try (right; left; reflexivity).
  all: try (right; right; assumption).
  all: split.
  all: try (intros K; discriminate K).
  all: try (intros _; left; reflexivity).
  all: try (intros _; reflexivity).
  all: try (intros _; right;
            match goal with
            | G : getitem _ _ = Ok ?a, D : dtype_in (dtype ?a) _ = false |- _ =>
                destruct a; try discriminate D;
                do 2 eexists; split; [reflexivity | exact G]
            end).
  all: intros [K|(lc' & xs' & K & G)]; [discriminate K|].
  all: injection K as <-.
  all: match goal with
       | G1 : getitem ?d ?c = Ok ?a, G2 : getitem ?d ?c = Ok (Object _),
         D : dtype_in (dtype ?a) _ = true |- _ =>
           rewrite G1 in G2; injection G2 as ->; discriminate D
       end.
Qed.

Lemma delivery_block_result_witness :
  exists r,
    _delivery_block Examples.lib Examples.engine Examples.df_three_charts
                    "late deliveries by state" "" = Ok (Some r)
    /\ res_derivation r = "Delivery analysis".
Proof.
  eexists. split; [vm_compute; reflexivity|].
  eapply (delivery_block_result string Examples.lib Examples.engine Examples.df_three_charts
            "late deliveries by state" "").
  vm_compute; reflexivity.
Defined.

(** The payment block declines exactly when no column name contains one of
    its markers or the first column that does is not of dtype int or float;
    the columns after the first one do not matter. *)
Theorem payment_block_declines_iff :
  forall (Any : Type) (lib : Library)
         (self : InsightsEngine Any) (df : DataFrame) (question sql : string),
    _payment_block lib self df question sql = Ok None <->
    filter (fun c => existsb (fun kw => str_in kw (lower c))
                       ["value"; "price"; "revenue"; "payment"])
           (columns df) = []
    \/ exists vc rest col,
         filter (fun c => existsb (fun kw => str_in kw (lower c))
                            ["value"; "price"; "revenue"; "payment"])
                (columns df) = vc :: rest
         /\ getitem df vc = Ok col
         /\ dtype_in (dtype col) [py_int; py_float] = false.
Proof.
  intros Any lib self df question sql. split.
  - intros H. unfold _payment_block in H. run_py H.
    + left. reflexivity.
    + right. do 3 eexists. split; [reflexivity|]. split; [eassumption|].
      now apply negb_true_iff.
  - intros [F|(vc & rest & col & F & G & D)];
      unfold _payment_block; cbv beta zeta; rewrite F; [reflexivity|].
    unfold Py.bind. rewrite G, D. reflexivity.
Qed.



(** A payment block that was selected finds its value column: when it then
    declines, it is because that column is not of dtype int or float. *)
Theorem payment_selected_declines_on_dtype :
  forall (Any : Type) (lib : Library)
         (self : InsightsEngine Any) (df : DataFrame) (question sql : string),
    In payment_block (_infer_blocks self question sql df) ->
    (exists vc rest,
        filter (fun c => existsb (fun kw => str_in kw (lower c))
                           ["value"; "price"; "revenue"; "payment"])
               (columns df) = vc :: rest)
    /\ (_payment_block lib self df question sql = Ok None ->
        exists vc rest col,
          filter (fun c => existsb (fun kw => str_in kw (lower c))
                             ["value"; "price"; "revenue"; "payment"])
                 (columns df) = vc :: rest
          /\ getitem df vc = Ok col
          /\ dtype_in (dtype col) [py_int; py_float] = false).
Proof.
  intros Any lib self df question sql Hin.
  rewrite infer_blocks_eq_select in Hin. unfold select in Hin.
  apply filter_In in Hin as [_ S]. unfold selected in S.
  apply andb_true_iff in S as [_ S]. apply existsb_exists in S as (c & Hc & M).
  cbn [markers existsb] in M.
  assert (F : In c (filter (fun c => existsb (fun kw => str_in kw (lower c))
                                        ["value"; "price"; "revenue"; "payment"])
                           (columns df))).
  { apply filter_In. split; [exact Hc|]. cbn [existsb].
    destruct (str_in "payment" (lower c)), (str_in "price" (lower c)),
             (str_in "value" (lower c)), (str_in "revenue" (lower c));
      try reflexivity; discriminate M. }
  destruct (filter _ (columns df)) as [|vc rest] eqn:E; [destruct F|].
  split; [now exists vc, rest|].
  intros H. unfold _payment_block in H. cbv beta zeta in H. rewrite E in H.
  run_py H.
  do 3 eexists. split; [reflexivity|]. split; [eassumption|].
  now apply negb_true_iff.
Qed.

Lemma payment_selected_declines_on_dtype_witness :
  In payment_block
     (_infer_blocks Examples.engine "total price by payment type" ""
                    Cases.df_payment_type_first)
  /\ _payment_block Examples.lib Examples.engine Cases.df_payment_type_first
                    "total price by payment type" "" = Ok None
  /\ exists vc rest col,
       filter (fun c => existsb (fun kw => str_in kw (lower c))
                          ["value"; "price"; "revenue"; "payment"])
              (columns Cases.df_payment_type_first) = vc :: rest
       /\ getitem Cases.df_payment_type_first vc = Ok col
       /\ dtype_in (dtype col) [py_int; py_float] = false.
Proof.
  assert (S : In payment_block
                 (_infer_blocks Examples.engine "total price by payment type" ""
                                Cases.df_payment_type_first))
    by (vm_compute; left; reflexivity).
  split; [exact S|]. split; [vm_compute; reflexivity|].
  apply (payment_selected_declines_on_dtype string Examples.lib
           Examples.engine Cases.df_payment_type_first
           "total price by payment type" "" S).
  vm_compute. reflexivity.
Defined.

(* ================================================================== *)
(** * Facts about the schema text parser *)

Import Bridge.

Lemma split_not_nil (sep : ascii) (s : string) : split sep s <> [].
Proof.
  induction s as [|c t IH]; cbn [split]; [discriminate|].
  destruct (Ascii.eqb c sep); [discriminate|].
  destruct (split sep t); discriminate.
Qed.

Lemma split_cons (sep c : ascii) (t : string) :
  split sep (String c t) =
  if Ascii.eqb c sep then "" :: split sep t
  else String c (hd "" (split sep t)) :: tl (split sep t).
Proof.
  cbn [split]. destruct (Ascii.eqb c sep); [reflexivity|].
  destruct (split sep t) eqn:E; [now apply split_not_nil in E | reflexivity].
Qed.

Lemma char_in_str_in (c : ascii) (s : string) :
  str_in (String c "") s = true <-> In c (chars s).
Proof.
  split; [apply str_in_first|].
  intros H. apply str_in_occurs.
  induction s as [|x s IH]; [destruct H|].
  destruct H as [->|H].
  - exists "", s. reflexivity.
  - destruct (IH H) as (pre & post & ->). exists (String x pre), post. reflexivity.
Qed.

(** Splitting at a character that occurs gives at least two pieces. *)
Lemma split_two (sep : ascii) (s : string) :
  In sep (chars s) -> exists a b r, split sep s = a :: b :: r.
Proof.
  induction s as [|c t IH]; [intros []|].
  intros H. rewrite split_cons. destruct (Ascii.eqb_spec c sep) as [->|N].
  - destruct (split sep t) as [|b r] eqn:E; [now apply split_not_nil in E|].
    now exists "", b, r.
  - destruct H as [H|H]; [congruence|].
    destruct (IH H) as (a & b & r & ->). now exists (String c a), b, r.
Qed.

Lemma parse_line_some (tables : Tables) (line : string) :
  exists tables', parse_line tables line = Some tables'.
Proof.
  unfold parse_line.
  destruct (str_in "(" line) eqn:O; cbn [andb]; [|eauto].
  destruct (str_in ")" line); [|eauto].
  apply char_in_str_in in O. destruct (split_two _ _ O) as (a & b & r & ->).
  cbn [nth_error].
  destruct (split ")" b) as [|ct rest] eqn:E; [now apply split_not_nil in E|].
  cbn [nth_error]. eauto.
Qed.

(** The parser never fails: on a line with both parentheses the pieces it
    indexes exist. *)
Theorem parse_schema_text_total :
  forall text : string, exists tables, _parse_schema_text text = Some tables.
Proof.
  intros text. unfold _parse_schema_text. cbv zeta.
  generalize (split (ascii_of_nat 10) text) as lines.
  generalize (@nil (string * list Column)) as tables.
  intros tables lines. revert tables.
  induction lines as [|l ls IH]; intros tables; cbn [parse_lines]; [eauto|].
  destruct (parse_line_some tables l) as [t' ->]. apply IH.
Qed.

(** ** Splitting and stripping *)

Lemma split_no_sep (sep : ascii) (s : string) :
  ~ In sep (chars s) -> split sep s = [s].
Proof.
  induction s as [|c t IH]; intros H; [reflexivity|].
  rewrite split_cons. destruct (Ascii.eqb_spec c sep) as [->|N].
  - elim H. now left.
  - rewrite IH; [reflexivity|]. intros X. apply H. now right.
Qed.

Lemma split_app_sep (sep : ascii) (a b : string) :
  split sep (a ++ String sep b) = (split sep a ++ split sep b)%list.
Proof.
  induction a as [|c a IH].
  - cbn [append split]. now rewrite Ascii.eqb_refl.
  - change (String c a ++ String sep b) with (String c (a ++ String sep b)).
    rewrite !split_cons, IH. destruct (Ascii.eqb c sep); [reflexivity|].
    destruct (split sep a) eqn:E; [now apply split_not_nil in E | reflexivity].
Qed.

Lemma split_first (sep : ascii) (a b : string) :
  ~ In sep (chars a) -> split sep (a ++ String sep b) = a :: split sep b.
Proof. intros H. now rewrite split_app_sep, (split_no_sep _ _ H). Qed.

Lemma join_cons2 (sep x y : string) (l : list string) :
  join sep (x :: y :: l) = x ++ sep ++ join sep (y :: l).
Proof. reflexivity. Qed.

Lemma split_join (sep : ascii) (l : list string) :
  l <> [] ->
  Forall (fun s => ~ In sep (chars s)) l ->
  split sep (join (String sep "") l) = l.
Proof.
  intros N F. induction F as [|x l Hx F IH]; [now elim N|].
  destruct l as [|y l].
  - cbn [join String.concat]. now apply split_no_sep.
  - rewrite join_cons2.
    change (String sep "" ++ join (String sep "") (y :: l))
      with (String sep (join (String sep "") (y :: l))).
    rewrite (split_first _ _ _ Hx), IH; [reflexivity | discriminate].
Qed.

Lemma drop_prefix_spec (p s r : string) :
  drop_prefix p s = Some r <-> s = p ++ r.
Proof.
  revert s. induction p as [|a p IH]; intros s; cbn [drop_prefix append].
  - split; [intros H; now injection H as -> | now intros ->].
  - destruct s as [|b s]; [split; discriminate|].
    destruct (Ascii.eqb_spec a b) as [->|N].
    + rewrite IH. split; [now intros -> | intros H; now injection H].
    + split; [discriminate|]. intros H. injection H as H _. now elim N.
Qed.

Lemma length_append (a b : string) :
  String.length (a ++ b) = (String.length a + String.length b)%nat.
Proof. induction a as [|c a IH]; cbn [append String.length]; [reflexivity | now rewrite IH]. Qed.

Lemma drop_first_some (ps : list string) (s r : string) :
  drop_first ps s = Some r -> exists p, In p ps /\ drop_prefix p s = Some r.
Proof.
  induction ps as [|p ps IH]; cbn [drop_first]; [discriminate|].
  destruct (drop_prefix p s) as [r'|] eqn:E.
  - intros H. injection H as ->. exists p. split; [now left | exact E].
  - intros H. destruct (IH H) as (q & Hq & Hd). exists q. split; [now right | exact Hd].
Qed.

Lemma drop_first_none (ps : list string) (s : string) :
  drop_first ps s = None <-> forall p, In p ps -> drop_prefix p s = None.
Proof.
  induction ps as [|p ps IH]; cbn [drop_first].
  - split; [intros _ q [] | reflexivity].
  - destruct (drop_prefix p s) as [r|] eqn:E.
    + split; [discriminate|]. intros H. rewrite (H p (or_introl eq_refl)) in E.
      discriminate E.
    + rewrite IH. split.
      * intros H q [<-|Hq]; [exact E | now apply H].
      * intros H q Hq. apply H. now right.
Qed.

Lemma drop_first_shorter (ps : list string) (s r : string) :
  Forall (fun p => p <> "") ps ->
  drop_first ps s = Some r -> (String.length r < String.length s)%nat.
Proof.
  intros NE H. apply drop_first_some in H as (p & Hp & H).
  apply drop_prefix_spec in H. subst s. rewrite length_append.
  rewrite Forall_forall in NE. specialize (NE p Hp).
  destruct p; [now elim NE | cbn [String.length]; lia].
Qed.

Lemma strip_left_done (ps : list string) (fuel : nat) (s : string) :
  Forall (fun p => p <> "") ps ->
  (String.length s <= fuel)%nat ->
  drop_first ps (strip_left ps fuel s) = None.
Proof.
  intros NE. revert s. induction fuel as [|fuel IH]; intros s L; cbn [strip_left].
  - destruct s; [|cbn in L; lia].
    apply drop_first_none. intros p Hp. rewrite Forall_forall in NE.
    specialize (NE p Hp). destruct p; [now elim NE | reflexivity].
  - destruct (drop_first ps s) as [r|] eqn:E; [|exact E].
    apply IH. apply (drop_first_shorter _ _ _ NE) in E. lia.
Qed.

Lemma strip_left_fix (ps : list string) (fuel : nat) (s : string) :
  drop_first ps s = None -> strip_left ps fuel s = s.
Proof. intros H. destruct fuel; cbn [strip_left]; [reflexivity | now rewrite H]. Qed.

Lemma strip_left_suffix (ps : list string) (fuel : nat) (s : string) :
  exists pre, s = pre ++ strip_left ps fuel s.
Proof.
  revert s. induction fuel as [|fuel IH]; intros s; cbn [strip_left].
  - now exists "".
  - destruct (drop_first ps s) as [r|] eqn:E; [|now exists ""].
    apply drop_first_some in E as (p & _ & E). apply drop_prefix_spec in E.
    destruct (IH r) as [pre Hpre]. exists (p ++ pre).
    rewrite append_assoc, <- Hpre. exact E.
Qed.

Lemma chars_string (s : string) : string_of_list_ascii (chars s) = s.
Proof. apply string_of_list_ascii_of_string. Qed.

Lemma reversed_involutive (s : string) : reversed (reversed s) = s.
Proof.
  unfold reversed. rewrite list_ascii_of_string_of_list_ascii, rev_involutive.
  apply chars_string.
Qed.

Lemma string_of_list_app (a b : list ascii) :
  string_of_list_ascii (a ++ b) = string_of_list_ascii a ++ string_of_list_ascii b.
Proof.
  induction a as [|c a IH]; cbn [app string_of_list_ascii append];
    [reflexivity | now rewrite IH].
Qed.

Lemma reversed_append (a b : string) :
  reversed (a ++ b) = reversed b ++ reversed a.
Proof.
  unfold reversed. fold (chars (a ++ b)). rewrite chars_app, rev_app_distr.
  apply string_of_list_app.
Qed.

Lemma reversed_length (s : string) : String.length (reversed s) = String.length s.
Proof.
  assert (L : forall l, String.length (string_of_list_ascii l) = length l).
  { induction l as [|c l IH]; cbn [string_of_list_ascii String.length length];
      [reflexivity | now rewrite IH]. }
  unfold reversed. rewrite L, length_rev.
  rewrite <- (chars_string s) at 2. now rewrite L.
Qed.

Lemma whitespace_not_empty : Forall (fun p => p <> "") whitespace.
Proof.
  apply Forall_forall. intros p Hp.
  assert (E : existsb (String.eqb "") whitespace = false) by (vm_compute; reflexivity).
  intros ->. assert (X : existsb (String.eqb "") whitespace = true).
  { apply existsb_exists. exists "". split; [exact Hp | reflexivity]. }
  congruence.
Qed.

Lemma reversed_whitespace_not_empty :
  Forall (fun p => p <> "") (map reversed whitespace).
Proof.
  apply Forall_forall. intros p Hp.
  assert (E : existsb (String.eqb "") (map reversed whitespace) = false)
    by (vm_compute; reflexivity).
  intros ->. assert (X : existsb (String.eqb "") (map reversed whitespace) = true).
  { apply existsb_exists. exists "". split; [exact Hp | reflexivity]. }
  congruence.
Qed.

(** What [strip] returns neither begins nor ends with white space, so
    stripping it again changes nothing. *)
Lemma rstrip_prefix (t : string) : exists post, t = rstrip t ++ post.
Proof.
  unfold rstrip.
  destruct (strip_left_suffix (map reversed whitespace) (String.length t) (reversed t))
    as [pre H].
  exists (reversed pre).
  rewrite <- reversed_append, <- H. symmetry. apply reversed_involutive.
Qed.

Lemma rstrip_fix (u : string) :
  drop_first (map reversed whitespace) (reversed u) = None -> rstrip u = u.
Proof.
  intros H. unfold rstrip. rewrite (strip_left_fix _ _ _ H). apply reversed_involutive.
Qed.

Lemma strip_idem (s : string) : strip (strip s) = strip s.
Proof.
  unfold strip. set (t := lstrip s).
  assert (A : drop_first whitespace t = None).
  { apply strip_left_done; [apply whitespace_not_empty | apply Nat.le_refl]. }
  destruct (rstrip_prefix t) as [post B].
  assert (C : drop_first whitespace (rstrip t) = None).
  { apply drop_first_none. intros p Hp.
    destruct (drop_prefix p (rstrip t)) as [r|] eqn:E; [|reflexivity].
    apply drop_prefix_spec in E.
    assert (X : drop_prefix p t = Some (r ++ post)).
    { apply drop_prefix_spec. rewrite B at 1. rewrite E. apply append_assoc. }
    rewrite (proj1 (drop_first_none _ _) A p Hp) in X. discriminate X. }
  unfold lstrip at 1. rewrite (strip_left_fix _ _ _ C).
  apply rstrip_fix. unfold rstrip. rewrite reversed_involutive.
  apply strip_left_done; [apply reversed_whitespace_not_empty|].
  rewrite reversed_length. apply Nat.le_refl.
Qed.

Lemma lstrip_space_cons (s : string) : lstrip (String " " s) = lstrip s.
Proof.
  unfold lstrip. cbn [String.length strip_left].
  change (drop_first whitespace (String " " s)) with (Some s). reflexivity.
Qed.

Lemma strip_space_cons (s : string) : strip (String " " s) = strip s.
Proof. unfold strip. now rewrite lstrip_space_cons. Qed.

(** White space outside ASCII is stripped too: a no-break space after the
    table name or before a column, an em space after a column. *)
Lemma parse_schema_text_unicode_space :
  _parse_schema_text "orders (id, total )"
  = Some [("orders", [ {| col_name := "id"; col_type := "TEXT" |};
                       {| col_name := "total"; col_type := "TEXT" |} ])].
Proof. vm_compute. reflexivity. Qed.

(** ** The tables dictionary *)

Lemma dict_get_set {V : Type} (k : string) (v : V) (d : list (string * V)) :
  dict_get k (dict_set k v d) = Some v.
Proof.
  induction d as [|[k' v'] d IH]; cbn [dict_set dict_get].
  - now rewrite String.eqb_refl.
  - destruct (String.eqb k' k) eqn:E; cbn [dict_get]; [now rewrite String.eqb_refl|].
    now rewrite E.
Qed.

Lemma dict_set_keys {V : Type} (k : string) (v : V) (d : list (string * V)) :
  forall x, In x (map fst (dict_set k v d)) <-> x = k \/ In x (map fst d).
Proof.
  induction d as [|[k' v'] d IH]; intros x; cbn [dict_set map fst In].
  - intuition.
  - destruct (String.eqb_spec k' k) as [->|N]; cbn [map fst In].
    + intuition.
    + rewrite IH. intuition.
Qed.

Lemma dict_set_nodup {V : Type} (k : string) (v : V) (d : list (string * V)) :
  NoDup (map fst d) -> NoDup (map fst (dict_set k v d)).
Proof.
  induction d as [|[k' v'] d IH]; cbn [dict_set map fst]; intros N.
  - repeat constructor. intros [].
  - inversion N as [|? ? Hn Nd]; subst.
    destruct (String.eqb_spec k' k) as [->|Ne]; cbn [map fst].
    + constructor; assumption.
    + constructor; [|now apply IH].
      rewrite dict_set_keys. intros [X|X]; [congruence | contradiction].
Qed.

Lemma dict_set_forall {V : Type} (P : string * V -> Prop) (k : string) (v : V)
    (d : list (string * V)) :
  P (k, v) -> Forall P d -> Forall P (dict_set k v d).
Proof.
  intros Hk F. induction F as [|[k' v'] d Hx F IH]; cbn [dict_set].
  - repeat constructor. exact Hk.
  - destruct (String.eqb k' k); constructor; assumption.
Qed.

Lemma dict_set_fresh {V : Type} (k : string) (v : V) (d : list (string * V)) :
  ~ In k (map fst d) -> dict_set k v d = (d ++ [(k, v)])%list.
Proof.
  induction d as [|[k' v'] d IH]; cbn [dict_set map fst In app]; intros H.
  - reflexivity.
  - destruct (String.eqb_spec k' k) as [->|N]; [elim H; now left|].
    rewrite IH; [reflexivity|]. intros X. apply H. now right.
Qed.

(** A table as the parser keeps it: a stripped name, and at least one
    column, every column typed TEXT with a stripped name. *)
Lemma parse_line_kept (tables tables' : Tables) (line : string) :
  parse_line tables line = Some tables' ->
  NoDup (map fst tables) ->
  Forall (fun t => strip (fst t) = fst t /\ snd t <> []
                   /\ Forall (fun c => col_type c = "TEXT"
                                       /\ strip (col_name c) = col_name c) (snd t))
         tables ->
  NoDup (map fst tables')
  /\ Forall (fun t => strip (fst t) = fst t /\ snd t <> []
                      /\ Forall (fun c => col_type c = "TEXT"
                                          /\ strip (col_name c) = col_name c) (snd t))
            tables'.
Proof.
  unfold parse_line. intros H N F.
  destruct (str_in "(" line && str_in ")" line); [|injection H as <-; now split].
  destruct (nth_error (split "(" line) 0) as [a|]; [|discriminate].
  destruct (nth_error (split "(" line) 1) as [b|]; [|discriminate].
  destruct (nth_error (split ")" b) 0) as [ct|]; [|discriminate].
  injection H as <-. split; [now apply dict_set_nodup|].
  apply dict_set_forall; [|exact F]. cbn [fst snd].
  split; [apply strip_idem|]. split.
  - destruct (split "," ct) eqn:E; [now apply split_not_nil in E | discriminate].
  - apply Forall_map. apply Forall_forall. intros c _. cbn [col_type col_name].
    split; [reflexivity | apply strip_idem].
Qed.

(** Whatever the text, the parsed tables have distinct stripped names, and
    every table has at least one column, each typed "TEXT" with a stripped
    name: a line [t()] yields one column with the empty name. *)
Theorem parse_schema_text_tables :
  forall (text : string) (tables : Tables),
    _parse_schema_text text = Some tables ->
    NoDup (map fst tables)
    /\ Forall (fun t => strip (fst t) = fst t /\ snd t <> []
                        /\ Forall (fun c => col_type c = "TEXT"
                                            /\ strip (col_name c) = col_name c)
                                  (snd t))
              tables.
Proof.
  intros text tables. unfold _parse_schema_text. cbv zeta.
  generalize (split (ascii_of_nat 10) text) as lines.
  assert (I : NoDup (map fst (@nil (string * list Column)))
              /\ Forall (fun t : string * list Column =>
                           strip (fst t) = fst t /\ snd t <> []
                           /\ Forall (fun c => col_type c = "TEXT"
                                               /\ strip (col_name c) = col_name c)
                                     (snd t)) [])
    by (split; constructor).
  revert I. generalize (@nil (string * list Column)) as acc.
  intros acc I lines. revert acc I.
  induction lines as [|l ls IH]; intros acc I H; cbn [parse_lines] in H.
  - injection H as <-. exact I.
  - destruct (parse_line acc l) as [acc'|] eqn:E; [|discriminate].
    apply (IH acc'); [|exact H].
    destruct I as [N F]. exact (parse_line_kept _ _ _ E N F).
Qed.

Lemma parse_schema_text_tables_witness :
  _parse_schema_text "t()" = Some [("t", [{| col_name := ""; col_type := "TEXT" |}])]
  /\ NoDup (map fst [("t", [{| col_name := ""; col_type := "TEXT" |}])]).
Proof.
  split; [reflexivity|].
  apply (parse_schema_text_tables "t()"). reflexivity.
Defined.

(** ** Lines *)

Lemma split_prefix (sep : ascii) (a b : string) :
  ~ In sep (chars a) ->
  split sep (a ++ b) = (a ++ hd "" (split sep b)) :: tl (split sep b).
Proof.
  induction a as [|c a IH]; intros H.
  - cbn [append]. destruct (split sep b) eqn:E; [now apply split_not_nil in E|].
    reflexivity.
  - change (String c a ++ b) with (String c (a ++ b)). rewrite split_cons.
    destruct (Ascii.eqb_spec c sep) as [->|N]; [elim H; now left|].
    rewrite IH; [reflexivity|]. intros X. apply H. now right.
Qed.

Lemma in_chars_app (c : ascii) (a b : string) :
  In c (chars (a ++ b)) <-> In c (chars a) \/ In c (chars b).
Proof. rewrite chars_app. apply in_app_iff. Qed.

Lemma parse_line_open (tables : Tables) (name tail : string) :
  ~ In "("%char (chars name) ->
  In ")"%char (chars tail) ->
  parse_line tables (name ++ String "(" tail) =
    Some (dict_set (strip name)
                   (map (fun col => {| col_name := strip col; col_type := "TEXT" |})
                        (split "," (hd "" (split ")" (hd "" (split "(" tail))))))
                   tables).
Proof.
  intros Hn Ht. unfold parse_line.
  assert (O : str_in "(" (name ++ String "(" tail) = true).
  { apply char_in_str_in, in_chars_app. right. now left. }
  assert (C : str_in ")" (name ++ String "(" tail) = true).
  { apply char_in_str_in, in_chars_app. right. now right. }
  rewrite O, C. cbn [andb].
  rewrite (split_first _ _ _ Hn). cbn [nth_error].
  destruct (split "(" tail) as [|after r] eqn:E; [now apply split_not_nil in E|].
  cbn [nth_error hd].
  destruct (split ")" after) as [|ct r'] eqn:E'; [now apply split_not_nil in E'|].
  reflexivity.
Qed.

Lemma parse_line_closed (tables : Tables) (name body rest : string) :
  ~ In "("%char (chars name) ->
  ~ In "("%char (chars body) ->
  ~ In ")"%char (chars body) ->
  parse_line tables (name ++ "(" ++ body ++ String ")" rest) =
    Some (dict_set (strip name)
                   (map (fun col => {| col_name := strip col; col_type := "TEXT" |})
                        (split "," body))
                   tables).
Proof.
  intros Hn Hb1 Hb2.
  change (name ++ "(" ++ body ++ String ")" rest)
    with (name ++ String "(" (body ++ String ")" rest)).
  rewrite parse_line_open;
    [|exact Hn | apply in_chars_app; right; now left].
  rewrite (split_prefix _ body _ Hb1). cbn [hd].
  rewrite split_cons. cbn [Ascii.eqb Bool.eqb hd].
  rewrite (split_first _ _ _ Hb2). reflexivity.
Qed.

(** The column list of a line is the text between its first "(" and the
    next parenthesis of either kind: it ends at the first ")" and also at a
    nested "(", as in [price DECIMAL(10,2)], whose columns stop at
    "price DECIMAL". *)
Theorem parse_line_columns :
  forall (tables : Tables) (name body rest : string) (d : ascii),
    ~ In "("%char (chars name) ->
    ~ In "("%char (chars body) ->
    ~ In ")"%char (chars body) ->
    d = ")"%char \/ (d = "("%char /\ In ")"%char (chars rest)) ->
    parse_line tables (name ++ "(" ++ body ++ String d rest) =
      Some (dict_set (strip name)
                     (map (fun col => {| col_name := strip col; col_type := "TEXT" |})
                          (split "," body))
                     tables).
Proof.
  intros tables name body rest d Hn Hb1 Hb2 Hd.
  change (name ++ "(" ++ body ++ String d rest)
    with (name ++ String "(" (body ++ String d rest)).
  rewrite parse_line_open;
    [|exact Hn
     |apply in_chars_app; right; destruct Hd as [->|[-> R]]; [now left | now right]].
  rewrite (split_prefix _ body _ Hb1). cbn [hd].
  destruct Hd as [->|[-> R]].
  - rewrite split_cons. cbn [Ascii.eqb Bool.eqb hd].
    rewrite (split_first _ _ _ Hb2). reflexivity.
  - rewrite split_cons. rewrite Ascii.eqb_refl. cbn [hd].
    rewrite append_nil_r, (split_no_sep _ _ Hb2). reflexivity.
Qed.

Lemma parse_line_columns_witness :
  parse_line [] "orders(id INT, price DECIMAL(10,2))" =
    Some [("orders", [ {| col_name := "id INT"; col_type := "TEXT" |};
                       {| col_name := "price DECIMAL"; col_type := "TEXT" |} ])].
Proof.
  apply (parse_line_columns [] "orders" "id INT, price DECIMAL" "10,2))" "("%char).
  - vm_compute. intuition discriminate.
  - vm_compute. intuition discriminate.
  - vm_compute. intuition discriminate.
  - right. split; [reflexivity|]. vm_compute. auto 10.
Defined.

Lemma parse_lines_app (acc : Tables) (l1 l2 : list string) :
  parse_lines acc (l1 ++ l2) =
  match parse_lines acc l1 with
  | Some t => parse_lines t l2
  | None => None
  end.
Proof.
  revert acc. induction l1 as [|l l1 IH]; intros acc; cbn [app parse_lines];
    [reflexivity|].
  destruct (parse_line acc l); [apply IH | reflexivity].
Qed.

(** Parsing goes line by line, and a later line for a table replaces what
    an earlier line said: after the text, a further line [name(body)]
    leaves the table [name] with the columns of [body]. *)
Theorem parse_schema_text_last_line :
  forall (text name body : string) (tables : Tables),
    _parse_schema_text text = Some tables ->
    ~ In (ascii_of_nat 10) (chars (name ++ "(" ++ body ++ ")")) ->
    ~ In "("%char (chars name) ->
    ~ In "("%char (chars body) ->
    ~ In ")"%char (chars body) ->
    exists tables',
      _parse_schema_text (text ++ nl ++ name ++ "(" ++ body ++ ")") = Some tables'
      /\ tables' = dict_set (strip name) (columns_of body) tables
      /\ dict_get (strip name) tables' = Some (columns_of body).
Proof.
  intros text name body tables P Hnl Hn Hb1 Hb2.
  eexists. split; [|split; [reflexivity | apply dict_get_set]].
  unfold _parse_schema_text in *. cbv zeta in *.
  change (text ++ nl ++ name ++ "(" ++ body ++ ")")
    with (text ++ String (ascii_of_nat 10) (name ++ "(" ++ body ++ ")")).
  rewrite split_app_sep, parse_lines_app, P, (split_no_sep _ _ Hnl).
  cbn [parse_lines].
  rewrite (parse_line_closed tables name body "" Hn Hb1 Hb2).
  reflexivity.
Qed.

Lemma parse_schema_text_last_line_witness :
  exists tables',
    _parse_schema_text ("orders(id)" ++ nl ++ "orders(id, total)") = Some tables'
    /\ dict_get "orders" tables' = Some (columns_of "id, total").
Proof.
  destruct (parse_schema_text_last_line "orders(id)" "orders" "id, total"
              [("orders", [{| col_name := "id"; col_type := "TEXT" |}])])
    as (t & H & _ & G).
  - reflexivity.
  - vm_compute. intuition discriminate.
  - vm_compute. intuition discriminate.
  - vm_compute. intuition discriminate.
  - vm_compute. intuition discriminate.
  - exists t. split; [exact H | exact G].
Defined.

(** ** The canonical text *)

Lemma join_chars (c : ascii) (sep : string) (l : list string) :
  In c (chars (join sep l)) ->
  In c (chars sep) \/ exists s, In s l /\ In c (chars s).
Proof.
  induction l as [|x l IH]; [intros []|].
  destruct l as [|y l].
  - cbn [join String.concat]. intros H. right. exists x. split; [now left | exact H].
  - rewrite join_cons2, !in_chars_app. intros [H|[H|H]].
    + right. exists x. split; [now left | exact H].
    + now left.
    + destruct (IH H) as [S|(s & Hs & Hc)]; [now left|].
      right. exists s. split; [now right | exact Hc].
Qed.

Lemma split_comma_join (cols : list string) :
  cols <> [] ->
  Forall (fun s => ~ In ","%char (chars s)) cols ->
  split "," (join ", " cols) = hd "" cols :: map (String " ") (tl cols).
Proof.
  intros N F. induction F as [|x l Hx F IH]; [now elim N|].
  destruct l as [|y l].
  - cbn [join String.concat hd tl map]. now apply split_no_sep.
  - rewrite join_cons2.
    change (", " ++ join ", " (y :: l)) with (String "," (String " " (join ", " (y :: l)))).
    rewrite (split_first _ _ _ Hx), split_cons. cbn [Ascii.eqb Bool.eqb].
    rewrite IH; [reflexivity | discriminate].
Qed.

Lemma columns_of_join (cols : list string) :
  cols <> [] -> Forall clean cols ->
  columns_of (join ", " cols) = text_columns cols.
Proof.
  intros N F. unfold columns_of, text_columns.
  rewrite split_comma_join; [|exact N|].
  - destruct cols as [|x l]; [now elim N|]. cbn [hd tl map].
    inversion F as [|? ? [_ Sx] Fl]; subst. rewrite Sx. f_equal.
    rewrite map_map. apply map_ext_in. intros c Hc.
    rewrite Forall_forall in Fl. destruct (Fl c Hc) as [_ Sc].
    now rewrite strip_space_cons, Sc.
  - eapply Forall_impl; [|exact F]. intros s [H _] X.
    destruct (H _ X) as (_ & _ & C & _). now apply C.
Qed.

Lemma render_table_chars (c : ascii) (t : string * list string) :
  clean (fst t) -> Forall clean (snd t) ->
  In c (chars (render_table t)) ->
  c = "("%char \/ c = ")"%char \/ c = ","%char \/ c = " "%char
  \/ (c <> "("%char /\ c <> ")"%char /\ c <> ","%char /\ c <> ascii_of_nat 10).
Proof.
  intros [Hn _] Hc. unfold render_table. rewrite !in_chars_app.
  intros [H|[H|[H|H]]].
  - do 4 right. now apply Hn.
  - destruct H as [<-|[]]. now left.
  - apply join_chars in H as [H|(s & Hs & H)].
    + destruct H as [<-|[<-|[]]]; auto.
    + do 4 right. rewrite Forall_forall in Hc. destruct (Hc s Hs) as [X _].
      now apply X.
  - destruct H as [<-|[]]. auto.
Qed.

Lemma parse_line_render (acc : Tables) (t : string * list string) :
  clean (fst t) -> snd t <> [] -> Forall clean (snd t) ->
  parse_line acc (render_table t) =
    Some (dict_set (fst t) (text_columns (snd t)) acc).
Proof.
  intros Hn Ne Hc. unfold render_table.
  change (fst t ++ "(" ++ join ", " (snd t) ++ ")")
    with (fst t ++ "(" ++ join ", " (snd t) ++ String ")" "").
  assert (B : forall c, In c (chars (join ", " (snd t))) ->
                        c <> "("%char /\ c <> ")"%char).
  { intros c H. apply join_chars in H as [H|(s & Hs & H)].
    - destruct H as [<-|[<-|[]]]; split; discriminate.
    - rewrite Forall_forall in Hc. destruct (Hc s Hs) as [X _].
      destruct (X c H) as (A1 & A2 & _). now split. }
  rewrite parse_line_closed.
  - destruct Hn as [_ Sn]. rewrite Sn.
    fold (columns_of (join ", " (snd t))). now rewrite columns_of_join.
  - destruct Hn as [X _]. intros H. destruct (X _ H) as (A & _). now apply A.
  - intros H. destruct (B _ H) as [A _]. now apply A.
  - intros H. destruct (B _ H) as [_ A]. now apply A.
Qed.

Lemma parse_lines_render (acc : Tables) (ts : list (string * list string)) :
  NoDup (map fst ts) ->
  (forall t, In t ts -> ~ In (fst t) (map fst acc)) ->
  Forall (fun t => clean (fst t) /\ snd t <> [] /\ Forall clean (snd t)) ts ->
  parse_lines acc (map render_table ts) =
    Some (acc ++ map (fun t => (fst t, text_columns (snd t))) ts)%list.
Proof.
  revert acc. induction ts as [|t ts IH]; intros acc N Fr F; cbn [map parse_lines].
  - now rewrite app_nil_r.
  - inversion F as [|? ? (Hn & Ne & Hc) F']; subst.
    inversion N as [|? ? Nt N']; subst.
    rewrite (parse_line_render acc t Hn Ne Hc).
    rewrite dict_set_fresh by (apply Fr; now left).
    rewrite IH; [now rewrite <- app_assoc | exact N' | | exact F'].
    intros u Hu. rewrite map_app, in_app_iff. cbn [map fst In].
    intros [X|[X|[]]].
    + apply (Fr u); [now right | exact X].
    + apply Nt. rewrite X. now apply in_map.
Qed.

(** Round trip: the canonical text of a schema, with distinct table names,
    at least one column per table and names free of parentheses, commas,
    line breaks and outer white space, parses back to that schema, every
    column typed "TEXT". *)
Theorem parse_render_schema :
  forall ts : list (string * list string),
    NoDup (map fst ts) ->
    Forall (fun t => clean (fst t) /\ snd t <> [] /\ Forall clean (snd t)) ts ->
    _parse_schema_text (render_schema ts) =
      Some (map (fun t => (fst t, text_columns (snd t))) ts).
Proof.
  intros ts N F. unfold _parse_schema_text, render_schema. cbv zeta.
  destruct ts as [|t ts]; [reflexivity|].
  change nl with (String (ascii_of_nat 10) "").
  rewrite split_join.
  - now rewrite parse_lines_render.
  - discriminate.
  - apply Forall_map. eapply Forall_impl; [|exact F].
    intros u (Hn & _ & Hc) X.
    apply (render_table_chars _ u Hn Hc) in X.
    destruct X as [X|[X|[X|[X|(_ & _ & _ & X)]]]];
      try (vm_compute in X; discriminate X). now apply X.
Qed.

Lemma clean_decide (s : string) :
  forallb (fun c => negb (Ascii.eqb c "(") && negb (Ascii.eqb c ")")
                    && negb (Ascii.eqb c ",") && negb (Ascii.eqb c (ascii_of_nat 10)))
          (chars s) = true ->
  strip s = s -> clean s.
Proof.
  intros H S. split; [|exact S]. intros c Hc.
  rewrite forallb_forall in H. specialize (H c Hc).
  rewrite !andb_true_iff, !negb_true_iff, !Ascii.eqb_neq in H. tauto.
Qed.

Lemma parse_render_schema_witness :
  _parse_schema_text
    (render_schema [("orders", ["order_id"; "order_value"]); ("customers", ["customer_id"])])
  = Some [("orders", text_columns ["order_id"; "order_value"]);
          ("customers", text_columns ["customer_id"])].
Proof.
  apply (parse_render_schema
           [("orders", ["order_id"; "order_value"]); ("customers", ["customer_id"])]).
  - constructor; [cbn; intuition discriminate|].
    constructor; [cbn; intuition | constructor].
  - constructor.
    + split; [apply clean_decide; reflexivity|]. split; [discriminate|].
      constructor; [apply clean_decide; reflexivity|].
      constructor; [apply clean_decide; reflexivity | constructor].
    + constructor; [|constructor].
      split; [apply clean_decide; reflexivity|]. split; [discriminate|].
      constructor; [apply clean_decide; reflexivity | constructor].
Defined.

(* ================================================================== *)
(** * Facts about the console handlers *)

Lemma run_kpis_nonempty (Any : Type) lib (self : InsightsEngine Any) q sql df a :
  empty df = false ->
  run lib self q sql df = Ok a ->
  kpis a <> [].
Proof.
  intros E H. rewrite (run_nonempty _ _ _ _ _ _ E) in H.
  destruct (invoke_all _ _) as [rs|e]; cbn [Py.bind] in H; [|discriminate].
  injection H as <-. unfold finish. rewrite generic_stats_eq. cbn [fst snd].
  destruct (kpis_list (fold_left absorb rs acc0)) as [|k ks]; cbn [kpis];
    [|discriminate].
  intros G. destruct (generic_tiles_count df) as [L|L]; rewrite G in L;
    discriminate L.
Qed.

Lemma analysis_kpis_nonempty (Any : Type) lib (get_adapter : Outcome (App.Adapter Any))
    q sql df a :
  empty df = false ->
  (adp <- get_adapter ;; App.analyze_results lib adp q sql df) = Ok a ->
  kpis a <> [].
Proof.
  intros E H. destruct get_adapter as [adp|]; cbn [Py.bind] in H; [|discriminate].
  unfold App.analyze_results in H.
  destruct (App.get_global_schema adp); cbn [Py.bind] in H; [|discriminate].
  eapply run_kpis_nonempty; eassumption.
Qed.

(** For a query that was generated and executed, [run_with_results] hands
    on the SQL, the rows and the details as they are; the insights panel is
    empty exactly when the result set is empty or the analysis raised, in
    which case both chart slots are empty too; otherwise the panel is the
    tile container followed by the narrative, and the chart slots hold the
    first and the second chart of the artifact. *)
Theorem run_with_results_panel :
  forall (Any : Type) (lib : Library)
         (generate_sql : string -> bool -> string * string * string * string)
         (execute_sql : string -> DataFrame * string * string)
         (get_adapter : Outcome (App.Adapter Any))
         (q : string) (explain : bool)
         (sql expl det raw : string) (df : DataFrame) (metrics err : string),
    generate_sql q explain = (sql, expl, det, raw) ->
    sql <> "" ->
    prefix "--" sql = false ->
    execute_sql sql = (df, metrics, err) ->
    exists html chart1 chart2,
      App.run_with_results lib generate_sql execute_sql get_adapter q explain
      = (sql, df, expl, det ++ nl ++ metrics ++ nl ++ err, raw, html, chart1, chart2)
      /\ (html = "" <->
          empty df = true
          \/ exists e,
               (adp <- get_adapter ;; App.analyze_results lib adp q sql df) = Raise e)
      /\ (html = "" -> chart1 = None /\ chart2 = None)
      /\ (forall a,
            empty df = false ->
            (adp <- get_adapter ;; App.analyze_results lib adp q sql df) = Ok a ->
            html = "<div class='kpi-container'>" ++ join "" (map App.kpi_tile (kpis a))
                   ++ "</div>" ++ nl ++ nl ++ narrative a
            /\ chart1 = nth_error (charts a) 0
            /\ chart2 = nth_error (charts a) 1).
Proof.
  intros Any lib generate_sql execute_sql get_adapter q explain
         sql expl det raw df metrics err Hg Hne Hp Hx.
  unfold App.run_with_results. rewrite Hg.
  apply String.eqb_neq in Hne. rewrite Hne, Hp. cbn [orb]. rewrite Hx.
  destruct (empty df) eqn:E; cbn [negb].
  - exists "", None, None. split; [reflexivity|]. split; [|split].
    + split; [now left | reflexivity].
    + now split.
    + intros a Ha. discriminate Ha.
  - destruct (adp <- get_adapter ;; App.analyze_results lib adp q sql df)
      as [a|e] eqn:R.
    + pose proof (analysis_kpis_nonempty Any lib get_adapter q sql df a E R) as K.
      destruct (kpis a) as [|k ks] eqn:KK; [now elim K|].
      do 3 eexists. split; [reflexivity|]. split; [|split].
      * split; [intros H; discriminate H|].
        intros [H|[e H]]; discriminate H.
      * intros H; discriminate H.
      * intros a' _ Ha. injection Ha as <-. rewrite KK. repeat split.
    + exists "", None, None. split; [reflexivity|]. split; [|split].
      * split; [right; now exists e | reflexivity].
      * now split.
      * intros a _ Ha. discriminate Ha.
Qed.

Lemma run_with_results_panel_witness :
  exists html chart1 chart2,
    App.run_with_results Examples.lib
      (fun _ _ => ("SELECT state, is_late FROM orders", "", "elapsed 0s", "{}"))
      (fun _ => (Examples.df_text_late, "2 rows", ""))
      (Ok {| App.get_global_schema := Ok ([] : list (string * string)) |})
      "late deliveries by state" false
    = ("SELECT state, is_late FROM orders", Examples.df_text_late, "",
       "elapsed 0s" ++ nl ++ "2 rows" ++ nl ++ "", "{}", html, chart1, chart2)
    /\ html = "" /\ chart1 = None /\ chart2 = None.
Proof.
  destruct (run_with_results_panel string Examples.lib
              (fun _ _ => ("SELECT state, is_late FROM orders", "", "elapsed 0s", "{}"))
              (fun _ => (Examples.df_text_late, "2 rows", ""))
              (Ok {| App.get_global_schema := Ok ([] : list (string * string)) |})
              "late deliveries by state" false
              "SELECT state, is_late FROM orders" "" "elapsed 0s" "{}"
              Examples.df_text_late "2 rows" ""
              eq_refl ltac:(discriminate) eq_refl eq_refl)
    as (html & c1 & c2 & Heq & Hiff & Hnone & _).
  assert (H : html = "").
  { apply Hiff. right. exists TypeError. vm_compute. reflexivity. }
  exists html, c1, c2. split; [exact Heq|]. split; [exact H|]. exact (Hnone H).
Defined.

(** ** The history of saved questions *)

Lemma map_outcome_lines {A : Type} (clock : A -> Outcome string)
    (line : nat -> string -> A -> string) (l : list A) :
  forall (s : nat) (lines : list string),
    App.map_outcome (fun ie : nat * A =>
                       t <- clock (snd ie) ;; Ok (line (fst ie) t (snd ie)))
                    (combine (seq s (length l)) l) = Ok lines ->
    length lines = length l
    /\ forall j x, nth_error l j = Some x ->
         exists t, clock x = Ok t
                   /\ nth_error lines j = Some (line (s + j)%nat t x).
Proof.
  induction l as [|a l IH]; intros s lines H; cbn [length seq combine App.map_outcome] in H.
  - injection H as <-. split; [reflexivity|]. intros [|j] x Hx; discriminate Hx.
  - cbn [fst snd] in H. destruct (clock a) as [t|] eqn:C; cbn [Py.bind] in H;
      [|discriminate].
    destruct (App.map_outcome _ _) as [ls|] eqn:M; cbn [Py.bind] in H; [|discriminate].
    injection H as <-. destruct (IH (S s) ls M) as [L N].
    split; [cbn [length]; now rewrite L|].
    intros [|j] x Hx; cbn [nth_error] in *.
    + injection Hx as <-. exists t. rewrite Nat.add_0_r. now split.
    + destruct (N j x Hx) as (t' & Ct & Nt). exists t'. split; [exact Ct|].
      rewrite Nat.add_succ_r. exact Nt.
Qed.

Lemma map_outcome_readable {A : Type} (clock : A -> Outcome string)
    (line : nat -> string -> A -> string) (l : list A) :
  (forall x, In x l -> exists t, clock x = Ok t) ->
  forall s : nat,
    exists lines,
      App.map_outcome (fun ie : nat * A =>
                         t <- clock (snd ie) ;; Ok (line (fst ie) t (snd ie)))
                      (combine (seq s (length l)) l) = Ok lines.
Proof.
  induction l as [|a l IH]; intros R s; cbn [length seq combine App.map_outcome].
  - now exists [].
  - cbn [fst snd]. destruct (R a (or_introl eq_refl)) as [t ->]. cbn [Py.bind].
    destruct (IH (fun x Hx => R x (or_intror Hx)) (S s)) as [ls ->]. cbn [Py.bind].
    eauto.
Qed.

Lemma format_history_cons (clock_time : string -> Outcome string) (h : list App.Entry) :
  h <> [] ->
  App.format_history clock_time h =
    (lines <- App.map_outcome
                (fun ie : nat * App.Entry =>
                   t <- clock_time (App.entry_timestamp (snd ie)) ;;
                   Ok ("**" ++ digits (N.of_nat (fst ie)) ++ ".** `" ++ t ++ "` - "
                       ++ App.slice_to 50 (App.entry_question (snd ie))))
                (App.enumerate1 (rev h)) ;;
     Ok (join (nl ++ nl) lines)).
Proof. destruct h; [now intros []| reflexivity]. Qed.

Lemma slice_to_length (n : nat) (s : string) :
  (char_count (App.slice_to n s) <= n)%nat.
Proof.
  unfold App.slice_to. revert n. induction s as [|c s IH]; intros n;
    cbn [take_chars char_count]; [lia|].
  destruct (is_continuation c) eqn:E.
  - cbn [char_count]. rewrite E. apply IH.
  - destruct n as [|n]; cbn [char_count]; [lia|]. rewrite E.
    specialize (IH n). lia.
Qed.

(** The text that [format_history] returns is "*No history*" exactly for
    the empty history; otherwise it is one line per entry, separated by
    blank lines, newest entry first and numbered from 1: the entry at
    position [k] of [n] gives line [n - k], with its time of day and at
    most the first 50 characters of its question. *)
Theorem format_history_lines :
  forall (clock_time : string -> Outcome string) (h : list App.Entry) (text : string),
    App.format_history clock_time h = Ok text ->
    (text = "*No history*" <-> h = [])
    /\ exists lines,
         length lines = length h
         /\ (h <> [] -> text = join (nl ++ nl) lines)
         /\ forall k e,
              nth_error h k = Some e ->
              exists t,
                clock_time (App.entry_timestamp e) = Ok t
                /\ (char_count (App.slice_to 50 (App.entry_question e)) <= 50)%nat
                /\ nth_error lines (length h - 1 - k)
                   = Some ("**" ++ digits (N.of_nat (length h - k)) ++ ".** `" ++ t
                           ++ "` - " ++ App.slice_to 50 (App.entry_question e)).
Proof.
  intros clock_time h text H.
  destruct h as [|e0 h0] eqn:Eh.
  - cbn in H. injection H as <-. split; [easy|]. exists []. split; [reflexivity|].
    split; [now intros []|]. intros [|k] e Hk; discriminate Hk.
  - rewrite <- Eh in *. assert (Hne : h <> []) by (rewrite Eh; discriminate).
    rewrite (format_history_cons _ _ Hne) in H. unfold App.enumerate1 in H.
    destruct (App.map_outcome _ _) as [lines|] eqn:M; cbn [Py.bind] in H;
      [|discriminate].
    injection H as <-.
    apply (map_outcome_lines
             (fun e => clock_time (App.entry_timestamp e))
             (fun i t e => "**" ++ digits (N.of_nat i) ++ ".** `" ++ t ++ "` - "
                           ++ App.slice_to 50 (App.entry_question e)))
      in M as [L N].
    rewrite length_rev in L.
    assert (P : forall k e,
              nth_error h k = Some e ->
              exists t,
                clock_time (App.entry_timestamp e) = Ok t
                /\ (char_count (App.slice_to 50 (App.entry_question e)) <= 50)%nat
                /\ nth_error lines (length h - 1 - k)
                   = Some ("**" ++ digits (N.of_nat (length h - k)) ++ ".** `" ++ t
                           ++ "` - " ++ App.slice_to 50 (App.entry_question e))).
    { intros k e Hk.
      assert (Hlt : (k < length h)%nat) by (apply nth_error_Some; congruence).
      destruct (N (length h - 1 - k)%nat e) as (t & Ct & Nt).
      - rewrite nth_error_rev.
        assert (X : (length h - 1 - k <? length h)%nat = true)
          by (apply Nat.ltb_lt; lia).
        rewrite X. replace (length h - S (length h - 1 - k))%nat with k by lia.
        exact Hk.
      - exists t. split; [exact Ct|]. split; [apply slice_to_length|].
        replace (length h - k)%nat with (1 + (length h - 1 - k))%nat by lia.
        exact Nt. }
    split.
    + split; [|intros X; now elim Hne].
      intros T. exfalso.
      destruct (nth_error h (length h - 1)) as [e|] eqn:Hl.
      2: { apply nth_error_None in Hl. rewrite Eh in Hl. cbn [length] in Hl. lia. }
      destruct (P (length h - 1)%nat e Hl) as (t & _ & _ & Nt).
      replace (length h - 1 - (length h - 1))%nat with 0%nat in Nt by lia.
      destruct lines as [|l0 rest]; [discriminate Nt|].
      cbn [nth_error] in Nt. injection Nt as ->.
      unfold join in T. destruct rest; cbn in T; discriminate T.
    + exists lines. split; [exact L|]. split; [reflexivity|]. exact P.
Qed.

Lemma format_history_lines_witness :
  "**1.** `10:30:05` - Which sellers ship late?" ++ nl ++ nl
  ++ "**2.** `10:29:41` - Quantos pedidos de São Paulo tiveram atraso na ent"
  = "*No history*"
  <-> [ {| App.entry_timestamp := "2024-05-01T10:29:41.120000";
           App.entry_question :=
             "Quantos pedidos de São Paulo tiveram atraso na entrega no último mês?";
           App.entry_sql := "SELECT count(*) FROM orders";
           App.entry_status := "success" |};
        {| App.entry_timestamp := "2024-05-01T10:30:05.000310";
           App.entry_question := "Which sellers ship late?";
           App.entry_sql := "SELECT seller_id FROM orders";
           App.entry_status := "success" |} ] = [].
Proof.
  refine (proj1 (format_history_lines (fun ts => Ok (substring 11 8 ts)) _ _ _)).
  vm_compute. reflexivity.
Defined.

(** One click on the save button appends the question twice: the handler
    calls [add_history] two times on the one history list, so the list
    grows by two entries that differ only in their timestamps, and the
    display shows both at its top. *)
Theorem save_history_appends_twice :
  forall (now_iso : nat -> string) (clock_time : string -> Outcome string)
         (h : App.World) (q s t1 t2 : string),
    (forall e, In e (App.history h) ->
               exists t, clock_time (App.entry_timestamp e) = Ok t) ->
    clock_time (now_iso (App.ticks h)) = Ok t1 ->
    clock_time (now_iso (S (App.ticks h))) = Ok t2 ->
    exists h' rest,
      App.save_history now_iso clock_time h q s
      = Ok (h', ("**1.** `" ++ t2 ++ "` - " ++ App.slice_to 50 q) ++ (nl ++ nl)
                ++ ("**2.** `" ++ t1 ++ "` - " ++ App.slice_to 50 q) ++ rest)
      /\ App.history h'
         = (App.history h
            ++ [ {| App.entry_timestamp := now_iso (App.ticks h);
                    App.entry_question := q;
                    App.entry_sql := s;
                    App.entry_status := "success" |};
                 {| App.entry_timestamp := now_iso (S (App.ticks h));
                    App.entry_question := q;
                    App.entry_sql := s;
                    App.entry_status := "success" |} ])%list
      /\ App.ticks h' = S (S (App.ticks h)).
Proof.
  intros now_iso clock_time h q s t1 t2 R H1 H2.
  unfold App.save_history, App.add_history.
  cbn [App.ticks App.history].
  rewrite format_history_cons by (intros X; apply app_eq_nil in X as [_ X]; discriminate X).
  unfold App.enumerate1. rewrite !rev_app_distr. cbn [rev app length seq combine].
  cbn [App.map_outcome fst snd App.entry_timestamp App.entry_question].
  rewrite H2. cbn [Py.bind]. rewrite H1. cbn [Py.bind].
  destruct (map_outcome_readable
              (fun e => clock_time (App.entry_timestamp e))
              (fun i t e => "**" ++ digits (N.of_nat i) ++ ".** `" ++ t ++ "` - "
                            ++ App.slice_to 50 (App.entry_question e))
              (rev (App.history h))
              (fun x Hx => R x (proj2 (in_rev _ _) Hx)) 3%nat) as [ls M].
  cbv beta in M. rewrite M. cbn [Py.bind].
  eexists. exists (match ls with [] => "" | _ => (nl ++ nl) ++ join (nl ++ nl) ls end).
  split.
  - f_equal. f_equal. unfold join. cbn [String.concat].
    change (digits (N.of_nat 1)) with "1". change (digits (N.of_nat 2)) with "2".
    destruct ls; [rewrite append_nil_r|]; reflexivity.
  - cbn [App.history App.ticks]. now rewrite <- app_assoc.
Qed.

Lemma save_history_appends_twice_witness :
  exists h' text,
    App.save_history (fun n => "2024-05-01T10:29:4" ++ digits (N.of_nat n) ++ ".120000")
                     (fun ts => Ok (substring 11 8 ts))
                     {| App.ticks := 0; App.history := [] |}
                     "Quais vendedores de São Paulo atrasaram mais de três entregas?"
                     "SELECT seller_id FROM orders"
    = Ok (h',
          "**1.** `10:29:41` - Quais vendedores de São Paulo atrasaram mais de tr"
          ++ nl ++ nl
          ++ "**2.** `10:29:40` - Quais vendedores de São Paulo atrasaram mais de tr"
          ++ text)
    /\ length (App.history h') = 2%nat.
Proof.
  destruct (save_history_appends_twice
              (fun n => "2024-05-01T10:29:4" ++ digits (N.of_nat n) ++ ".120000")
              (fun ts => Ok (substring 11 8 ts))
              {| App.ticks := 0; App.history := [] |}
              "Quais vendedores de São Paulo atrasaram mais de três entregas?"
              "SELECT seller_id FROM orders"
              "10:29:40" "10:29:41")
    as (h' & rest & E & Hh & _).
  - intros e [].
  - reflexivity.
  - reflexivity.
  - exists h', rest. split; [exact E|]. rewrite Hh. reflexivity.
Defined.
